(** * Simple Notes front end: API adapter and view controller

    A shallow embedding of [src/api/notesApi.js] and of the request
    orchestration of [src/App.js], with the properties that the
    specification states about them.

    Conventions of the embedding:
    - a JavaScript value is a [JsVal]; objects are finite maps from property
      names to values, arrays are lists;
    - strings are sequences of 8-bit characters and the string builtins the
      program calls ([trim], [toLowerCase], [includes],
      [encodeURIComponent]) are given on that alphabet;
    - numbers carried by JSON bodies are integers;
    - an [async] function is a computation in the monad [Async], which
      threads the log of the requests handed to [fetch] and either returns
      or throws. *)

From Stdlib Require Import ZArith Ascii String List Bool Lia.
From stdpp Require Import base option list gmap strings pretty.

Set Warnings "-register-all".

Local Open Scope string_scope.
Local Open Scope Z_scope.

(** ** JavaScript values *)

Inductive JsVal : Type :=
  | JUndefined
  | JNull
  | JBool (b : bool)
  | JNum (n : Z)
  | JStr (s : string)
  | JArr (xs : list JsVal)
  | JObj (props : gmap string JsVal).

Module Js.

(** [ToBoolean]: what [!v], [v || w] and [filter(Boolean)] test. *)
Definition truthy (v : JsVal) : bool :=
  match v with
  | JUndefined | JNull => false
  | JBool b => b
  | JNum n => negb (n =? 0)
  | JStr s => negb (String.eqb s "")
  | JArr _ | JObj _ => true
  end.

(** [v === undefined || v === null]: what [??] and [?.] test. *)
Definition nullish (v : JsVal) : bool :=
  match v with
  | JUndefined | JNull => true
  | _ => false
  end.

(** [a || b] *)
Definition or (a b : JsVal) : JsVal := if truthy a then a else b.

(** [a ?? b] *)
Definition coalesce (a b : JsVal) : JsVal := if nullish a then b else a.

(** [typeof v === "object"]; [typeof null] is ["object"] too. *)
Definition typeof_object (v : JsVal) : bool :=
  match v with
  | JNull | JArr _ | JObj _ => true
  | _ => false
  end.

(** [Array.isArray(v)] *)
Definition isArray (v : JsVal) : bool :=
  match v with
  | JArr _ => true
  | _ => false
  end.

(** [v?.k] for the property names the program reads ([id], [title],
    [items], [detail], ...): an own property of an object, [undefined] on
    every other value (none of those names is an index, [length] or a
    method of a primitive wrapper or of an array). *)
Definition get (v : JsVal) (k : string) : JsVal :=
  match v with
  | JObj m => default JUndefined (m !! k)
  | _ => JUndefined
  end.

Fixpoint join (sep : string) (parts : list string) : string :=
  match parts with
  | [] => ""
  | [p] => p
  | p :: rest => p ++ sep ++ join sep rest
  end.

(** [String(v)], the [ToString] conversion. *)
Fixpoint toString (v : JsVal) : string :=
  match v with
  | JUndefined => "undefined"
  | JNull => "null"
  | JBool true => "true"
  | JBool false => "false"
  | JNum n => pretty n
  | JStr s => s
  | JArr xs =>
      join "," (List.map (fun x => if nullish x then "" else toString x) xs)
  | JObj _ => "[object Object]"
  end.

(** The own enumerable properties copied by a spread [{...v}]: those of
    an object, the indices of an array, none of a primitive. *)
Definition spread (v : JsVal) : gmap string JsVal :=
  match v with
  | JObj m => m
  | JArr xs => list_to_map (imap (fun i x => (pretty i, x)) xs)
  | _ => ∅
  end.

End Js.

Declare Scope js_scope.
Delimit Scope js_scope with js.
Infix "||" := Js.or (at level 50, left associativity) : js_scope.
Infix "??" := Js.coalesce (at level 50, left associativity) : js_scope.

(** ** String builtins *)

Module Str.

Definition is_space (c : ascii) : bool :=
  let n := nat_of_ascii c in
  ((9 <=? n) && (n <=? 13) || (n =? 32))%nat.

Fixpoint trim_start (s : string) : string :=
  match s with
  | String c r => if is_space c then trim_start r else s
  | EmptyString => EmptyString
  end.

(** drops the white space that ends [s] *)
Fixpoint trim_end (s : string) : string :=
  match s with
  | EmptyString => EmptyString
  | String c r =>
      match trim_end r with
      | EmptyString => if is_space c then EmptyString else String c EmptyString
      | r' => String c r'
      end
  end.

(** [s.trim()] *)
Definition trim (s : string) : string := trim_end (trim_start s).

Definition lower (c : ascii) : ascii :=
  let n := nat_of_ascii c in
  if ((65 <=? n) && (n <=? 90))%nat then ascii_of_nat (n + 32) else c.

(** [s.toLowerCase()] *)
Fixpoint toLowerCase (s : string) : string :=
  match s with
  | EmptyString => EmptyString
  | String c r => String (lower c) (toLowerCase r)
  end.

Fixpoint startsWith (s p : string) : bool :=
  match p, s with
  | EmptyString, _ => true
  | String _ _, EmptyString => false
  | String b p', String a s' => Ascii.eqb a b && startsWith s' p'
  end.

(** [s.includes(p)] *)
Fixpoint includes (s p : string) : bool :=
  startsWith s p ||
  match s with
  | EmptyString => false
  | String _ s' => includes s' p
  end.

Definition unreserved (c : ascii) : bool :=
  let n := nat_of_ascii c in
  ((65 <=? n) && (n <=? 90) || (97 <=? n) && (n <=? 122) ||
   (48 <=? n) && (n <=? 57) ||
   existsb (Nat.eqb n) [45; 95; 46; 33; 126; 42; 39; 40; 41])%nat.

Definition hex_digit (n : nat) : ascii :=
  if (n <? 10)%nat then ascii_of_nat (48 + n) else ascii_of_nat (55 + n).

(** [encodeURIComponent(s)]: letters, digits and [-_.!~*'()] are kept,
    every other character is escaped as [%XX]. *)
Fixpoint encodeURIComponent (s : string) : string :=
  match s with
  | EmptyString => EmptyString
  | String c r =>
      if unreserved c then String c (encodeURIComponent r)
      else
        let n := nat_of_ascii c in
        String "%" (String (hex_digit (n / 16)) (String (hex_digit (n mod 16))
          (encodeURIComponent r)))
  end.

(** [s.replace(/\/+$/, empty)]: the slashes that end [s] are removed *)
Fixpoint strip_trailing_slashes (s : string) : string :=
  match s with
  | EmptyString => EmptyString
  | String c r =>
      match strip_trailing_slashes r with
      | EmptyString => if Ascii.eqb c "/" then EmptyString else String c EmptyString
      | r' => String c r'
      end
  end.

End Str.

(** ** Errors, results and the [Async] monad *)

(** What the program reads of a thrown value: [e?.name], [e?.message] and
    [e?.status] ([None] when the property is not set). *)
Record JsError : Type := mkError {
  err_name : string;
  err_message : string;
  err_status : option Z
}.

Inductive Result (A : Type) : Type :=
  | Ok (a : A)
  | Throw (e : JsError).
Arguments Ok {A} a.
Arguments Throw {A} e.

(** What [fetch], [res.json()] and [res.text()] reject with: a [TypeError]
    (network failure), a [DOMException] named [AbortError] (the signal was
    aborted) or a [SyntaxError] (the body is not JSON). None of them has a
    [status] property. *)
Record Rejection : Type := mkRejection {
  rej_name : string;
  rej_message : string
}.

Inductive Outcome (A : Type) : Type :=
  | Fulfilled (a : A)
  | Rejected (r : Rejection).
Arguments Fulfilled {A} a.
Arguments Rejected {A} r.

Definition thrown (r : Rejection) : JsError :=
  {| err_name := rej_name r; err_message := rej_message r; err_status := None |}.

(** What [fetch] is handed: the URL and the init object
    [{ ...options, headers, signal }]. *)
Record Request : Type := mkRequest {
  req_url : string;
  req_method : string;
  req_headers : gmap string string;
  req_body : option string;
  req_signal : option nat
}.

(** What the program reads of a [Response]: [status], the [content-type]
    header ([None] when [headers.get] gives [null]) and the outcomes of
    [res.json()] and [res.text()], either of which may reject. *)
Record Response : Type := mkResponse {
  res_status : Z;
  res_content_type : option string;
  res_json : Outcome JsVal;
  res_text : Outcome string
}.

(** [res.ok]: the status is in the range 200-299. *)
Definition res_ok (res : Response) : bool :=
  (200 <=? res_status res) && (res_status res <=? 299).

(** The backend and the transport: the outcome of a [fetch] may depend on
    the requests made before it. *)
Definition Net : Type := list Request -> Request -> Outcome Response.

(** An asynchronous computation: it extends the log of the requests made
    and either returns a value or throws. *)
Definition Async (A : Type) : Type := list Request -> Result A * list Request.

Definition ret {A} (a : A) : Async A := fun log => (Ok a, log).

Definition throw {A} (e : JsError) : Async A := fun log => (Throw e, log).

Definition bind {A B} (m : Async A) (k : A -> Async B) : Async B :=
  fun log =>
    match m log with
    | (Ok a, log') => k a log'
    | (Throw e, log') => (Throw e, log')
    end.

(** [try { m } catch (e) { h e }] *)
Definition try_catch {A} (m : Async A) (h : JsError -> Async A) : Async A :=
  fun log =>
    match m log with
    | (Ok a, log') => (Ok a, log')
    | (Throw e, log') => h e log'
    end.

(** a synchronous call that returns or throws *)
Definition call {A} (r : Result A) : Async A := fun log => (r, log).

(** [await p] for a promise of the environment that settles as [o] *)
Definition await {A} (o : Outcome A) : Async A :=
  fun log =>
    match o with
    | Fulfilled a => (Ok a, log)
    | Rejected r => (Throw (thrown r), log)
    end.

(** [await fetch(url, init)]: the request is logged and the backend
    settles it. *)
Definition fetch (net : Net) (req : Request) : Async Response :=
  fun log => await (net log req) (log ++ [req])%list.

Notation "x <- m ;; k" := (bind m (fun x => k))
  (at level 100, m at next level, right associativity).

(** ** The API adapter, [src/api/notesApi.js] *)

(** [process.env] *)
Record Env : Type := mkEnv {
  REACT_APP_API_BASE : option string;
  REACT_APP_BACKEND_URL : option string
}.

(** The [options] argument of [requestJson]. *)
Record RequestInit : Type := mkInit {
  init_method : string;
  init_body : option string;
  init_headers : option (gmap string string)
}.

(** An environment variable as a value: [undefined] when it is not set. *)
Definition env_val (o : option string) : JsVal :=
  match o with
  | Some s => JStr s
  | None => JUndefined
  end.

Definition normalizeBaseUrl (url : JsVal) : string :=
  if negb (Js.truthy url) then ""
  else Str.strip_trailing_slashes (Js.toString url).

Definition getApiBaseUrl (env : Env) : string :=
  let preferred := env_val (REACT_APP_API_BASE env) in
  let fallback := env_val (REACT_APP_BACKEND_URL env) in
  normalizeBaseUrl (preferred || fallback || JStr "")%js.

Definition str_truthy (s : string) : bool := negb (String.eqb s "").

Definition requestJson (env : Env) (net : Net)
    (path : string) (options : RequestInit) (signal : option nat) : Async JsVal :=
  let baseUrl := getApiBaseUrl env in
  let url := if str_truthy baseUrl then baseUrl ++ path else path in
  let headers : gmap string string :=
    default ∅ (init_headers options)
    ∪ (if str_truthy (default "" (init_body options))
       then {[ "Content-Type" := "application/json" ]} else ∅)
    ∪ {[ "Accept" := "application/json" ]} in
  res <- fetch net {| req_url := url; req_method := init_method options;
                      req_headers := headers; req_body := init_body options;
                      req_signal := signal |} ;;
  let contentType := default "" (res_content_type res) in
  let isJson := Str.includes contentType "application/json" in
  if negb (res_ok res) then
    let message := JStr ("Request failed (" ++ pretty (res_status res) ++ ")") in
    let message :=
      if isJson then
        match res_json res with
        | Fulfilled data =>
            (Js.get data "detail" || Js.get data "message" || message)%js
        | Rejected _ => message
        end
      else
        match res_text res with
        | Fulfilled text => if str_truthy text then JStr text else message
        | Rejected _ => message
        end in
    throw {| err_name := "Error"; err_message := Js.toString message;
             err_status := Some (res_status res) |}
  else if res_status res =? 204 then ret JNull
  else if isJson then await (res_json res)
  else text <- await (res_text res) ;; ret (JStr text).

(** Try to adapt backend note shapes to a consistent UI shape. *)
Definition normalizeNote (raw : JsVal) : JsVal :=
  if negb (Js.truthy raw) || negb (Js.typeof_object raw) then JNull
  else
    let id := (Js.get raw "id" ?? Js.get raw "note_id" ?? Js.get raw "_id"
               ?? Js.get raw "uuid" ?? JNull)%js in
    JObj (<["content" := (Js.get raw "content" ?? Js.get raw "body" ?? JStr "")%js]>
         (<["title" := (Js.get raw "title" ?? JStr "")%js]>
         (<["id" := id]> (Js.spread raw)))).

Definition TypeError (msg : string) : JsError :=
  {| err_name := "TypeError"; err_message := msg; err_status := None |}.

(** [list.map(normalizeNote).filter(Boolean)]; a [list] that is not an
    array has no [map] method and the call throws. *)
Definition normalizeNotesResponse (data : JsVal) : Result (list JsVal) :=
  let list :=
    if Js.isArray data then data
    else (Js.get data "items" || Js.get data "notes" || JArr [])%js in
  match list with
  | JArr xs => Ok (List.filter Js.truthy (List.map normalizeNote xs))
  | _ => Throw (TypeError "list.map is not a function")
  end.

Definition GET : RequestInit :=
  {| init_method := "GET"; init_body := None; init_headers := None |}.

Definition listNotes (env : Env) (net : Net) (signal : option nat)
    : Async (list JsVal) :=
  data <- requestJson env net "/notes" GET signal ;;
  call (normalizeNotesResponse data).

Section Mutations.

(** [JSON.stringify], which the adapter applies to the object literal
    [{ title, content }] only. *)
Variable JSON_stringify : JsVal -> string.

Variables (env : Env) (net : Net).

(** [JSON.stringify({ title: payload?.title ?? "", content: payload?.content ?? "" })] *)
Definition note_body (payload : JsVal) : string :=
  JSON_stringify
    (JObj (<["content" := (Js.get payload "content" ?? JStr "")%js]>
          (<["title" := (Js.get payload "title" ?? JStr "")%js]> ∅))).

Definition with_body (method body : string) : RequestInit :=
  {| init_method := method; init_body := Some body; init_headers := None |}.

Definition createNote (payload : JsVal) (signal : option nat) : Async JsVal :=
  data <- requestJson env net "/notes" (with_body "POST" (note_body payload)) signal ;;
  let normalized := normalizeNote data in
  ret (normalized || JNull)%js.

Definition updateNote (id payload : JsVal) (signal : option nat) : Async JsVal :=
  let safeId := Str.encodeURIComponent (Js.toString id) in
  let body := note_body payload in
  try_catch
    (data <- requestJson env net ("/notes/" ++ safeId) (with_body "PUT" body) signal ;;
     ret (normalizeNote data || JNull)%js)
    (fun e =>
       if decide (err_status e = Some 405) then
         data <- requestJson env net ("/notes/" ++ safeId) (with_body "PATCH" body) signal ;;
         ret (normalizeNote data || JNull)%js
       else throw e).

Definition deleteNote (id : JsVal) (signal : option nat) : Async bool :=
  let safeId := Str.encodeURIComponent (Js.toString id) in
  _ <- requestJson env net ("/notes/" ++ safeId)
         {| init_method := "DELETE"; init_body := None; init_headers := None |} signal ;;
  ret true.

End Mutations.

Definition searchNotes (env : Env) (net : Net) (query : JsVal) (signal : option nat)
    : Async (list JsVal) :=
  let q := Str.encodeURIComponent (Str.trim (Js.toString (query || JStr "")%js)) in
  if negb (str_truthy q) then ret []
  else
    try_catch
      (data <- requestJson env net ("/notes/search?q=" ++ q) GET signal ;;
       call (normalizeNotesResponse data))
      (fun _ =>
         try_catch
           (data <- requestJson env net ("/notes/search?query=" ++ q) GET signal ;;
            call (normalizeNotesResponse data))
           (fun _ =>
              data <- requestJson env net ("/notes?q=" ++ q) GET signal ;;
              call (normalizeNotesResponse data))).

(** ** The view controller, [src/App.js] *)

Definition containsInsensitive (haystack needle : JsVal) : bool :=
  Str.includes (Str.toLowerCase (Js.toString (haystack || JStr "")%js))
               (Str.toLowerCase (Js.toString (needle || JStr "")%js)).

Definition filterClientSide (notes : list JsVal) (query : JsVal) : list JsVal :=
  let q := Str.trim (Js.toString (query || JStr "")%js) in
  if negb (str_truthy q) then notes
  else
    List.filter
      (fun n => containsInsensitive (Js.get n "title") (JStr q)
                || containsInsensitive (Js.get n "content") (JStr q))
      notes.

(** The state of the [App] component: its [useState] cells, its two refs,
    and the [AbortController]s made so far ([aborted] holds those whose
    [abort()] was called; a controller is named by its rank of creation). *)
Record AppState : Type := mkApp {
  notes : list JsVal;
  loading : bool;
  busyMutation : bool;
  error : string;
  search : string;
  modalOpen : bool;
  modalMode : string;
  activeNote : JsVal;
  serverSearchActive : bool;
  listAbortRef : option nat;
  searchAbortRef : option nat;
  aborted : gset nat;
  controllers : nat
}.

Definition initialState : AppState :=
  {| notes := []; loading := false; busyMutation := false; error := "";
     search := ""; modalOpen := false; modalMode := "create";
     activeNote := JNull; serverSearchActive := false;
     listAbortRef := None; searchAbortRef := None;
     aborted := ∅; controllers := 0 |}.

Definition setNotes (v : list JsVal) (st : AppState) : AppState :=
  mkApp v (loading st) (busyMutation st) (error st) (search st) (modalOpen st)
    (modalMode st) (activeNote st) (serverSearchActive st) (listAbortRef st)
    (searchAbortRef st) (aborted st) (controllers st).

Definition setLoading (v : bool) (st : AppState) : AppState :=
  mkApp (notes st) v (busyMutation st) (error st) (search st) (modalOpen st)
    (modalMode st) (activeNote st) (serverSearchActive st) (listAbortRef st)
    (searchAbortRef st) (aborted st) (controllers st).

Definition setError (v : string) (st : AppState) : AppState :=
  mkApp (notes st) (loading st) (busyMutation st) v (search st) (modalOpen st)
    (modalMode st) (activeNote st) (serverSearchActive st) (listAbortRef st)
    (searchAbortRef st) (aborted st) (controllers st).

Definition setSearch (v : string) (st : AppState) : AppState :=
  mkApp (notes st) (loading st) (busyMutation st) (error st) v (modalOpen st)
    (modalMode st) (activeNote st) (serverSearchActive st) (listAbortRef st)
    (searchAbortRef st) (aborted st) (controllers st).

Definition setServerSearchActive (v : bool) (st : AppState) : AppState :=
  mkApp (notes st) (loading st) (busyMutation st) (error st) (search st)
    (modalOpen st) (modalMode st) (activeNote st) v (listAbortRef st)
    (searchAbortRef st) (aborted st) (controllers st).

(** [ref.current.abort()] when [ref.current] is set *)
Definition abort (ref : option nat) (st : AppState) : AppState :=
  match ref with
  | Some c =>
      mkApp (notes st) (loading st) (busyMutation st) (error st) (search st)
        (modalOpen st) (modalMode st) (activeNote st) (serverSearchActive st)
        (listAbortRef st) (searchAbortRef st) ({[ c ]} ∪ aborted st) (controllers st)
  | None => st
  end.

(** [const controller = new AbortController(); listAbortRef.current = controller] *)
Definition newListController (st : AppState) : AppState * nat :=
  let c := controllers st in
  (mkApp (notes st) (loading st) (busyMutation st) (error st) (search st)
     (modalOpen st) (modalMode st) (activeNote st) (serverSearchActive st)
     (Some c) (searchAbortRef st) (aborted st) (S c), c).

(** [const controller = new AbortController(); searchAbortRef.current = controller] *)
Definition newSearchController (st : AppState) : AppState * nat :=
  let c := controllers st in
  (mkApp (notes st) (loading st) (busyMutation st) (error st) (search st)
     (modalOpen st) (modalMode st) (activeNote st) (serverSearchActive st)
     (listAbortRef st) (Some c) (aborted st) (S c), c).

(** [const visibleNotes = useMemo(() => filterClientSide(notes, search), ...)] *)
Definition visibleNotes (st : AppState) : list JsVal :=
  filterClientSide (notes st) (JStr (search st)).

(** The label of the status pill. *)
Definition statusLabel (st : AppState) : string :=
  if serverSearchActive st then "Server search" else "Client filter".

(** [loadNotes], up to its [await]: the controller of the request it starts
    is returned with the state. *)
Definition loadNotes_begin (st : AppState) : AppState * nat :=
  let st := abort (listAbortRef st) st in
  let '(st, controller) := newListController st in
  let st := setLoading true st in
  let st := setError "" st in
  (st, controller).

(** [loadNotes], from the moment [await listNotes(...)] settles as [r]:
    the [try] continues or the [catch] runs, then the [finally]. *)
Definition loadNotes_settle (r : Result (list JsVal)) (st : AppState) : AppState :=
  let st :=
    match r with
    | Ok data => setNotes data st
    | Throw e =>
        if String.eqb (err_name e) "AbortError" then st
        else setError (Js.toString (JStr (err_message e) || JStr "Failed to load notes.")%js) st
    end in
  setLoading false st.

(** A [loadNotes] that no other event interleaves with. *)
Definition loadNotes (env : Env) (net : Net) (st : AppState) (log : list Request)
    : AppState * list Request :=
  let '(st, controller) := loadNotes_begin st in
  let '(r, log) := listNotes env net (Some controller) log in
  (loadNotes_settle r st, log).

(** The effect on [search], run after a render in which [search] changed:
    the query for which the 350 ms timer is armed is returned, if any. *)
Definition searchEffect (st : AppState) : AppState * option string :=
  let q := Str.trim (Js.toString (JStr (search st) || JStr "")%js) in
  if (String.length q <? 2)%nat then
    let st := setServerSearchActive false st in
    (abort (searchAbortRef st) st, None)
  else (st, Some q).

(** The timer callback, up to its [await]. *)
Definition searchTimer_begin (st : AppState) : AppState * nat :=
  let st := abort (searchAbortRef st) st in
  newSearchController st.

(** The timer callback, from the moment [await searchNotes(...)] settles. *)
Definition searchTimer_settle (r : Result (list JsVal)) (st : AppState) : AppState :=
  match r with
  | Ok results =>
      let st := setNotes results st in
      setServerSearchActive true st
  | Throw e =>
      if String.eqb (err_name e) "AbortError" then st
      else setServerSearchActive false st
  end.

(** A timer callback that no other event interleaves with. *)
Definition searchTimer (env : Env) (net : Net) (q : string) (st : AppState)
    (log : list Request) : AppState * list Request :=
  let '(st, controller) := searchTimer_begin st in
  let '(r, log) := searchNotes env net (JStr q) (Some controller) log in
  (searchTimer_settle r st, log).

(** [onChange={(e) => setSearch(e.target.value)}], with the effect that the
    new render runs. *)
Definition onSearchChange (value : string) (st : AppState) : AppState * option string :=
  searchEffect (setSearch value st).

(** ** Specification-side definitions *)

(** A value that [normalizeNote] keeps: an object (or array), not [null]. *)
Definition is_object (v : JsVal) : bool := Js.truthy v && Js.typeof_object v.

(** The first of the properties [keys] of [raw], in that order, whose value
    is neither [null] nor [undefined]; [dflt] when there is none. *)
Fixpoint first_non_nullish (raw : JsVal) (keys : list string) (dflt : JsVal) : JsVal :=
  match keys with
  | [] => dflt
  | k :: ks =>
      if Js.nullish (Js.get raw k) then first_non_nullish raw ks dflt
      else Js.get raw k
  end.

(** A Note whose [id] is present and whose [title] and [content] are
    strings. *)
Definition string_fields (n : JsVal) : Prop :=
  exists m t c, n = JObj m /\ m !! "title" = Some (JStr t)
                /\ m !! "content" = Some (JStr c) /\ is_Some (m !! "id").

(** A Note with [id], [title] and [content] present, [id] possibly [null],
    [title] and [content] neither [null] nor [undefined]. *)
Definition canonical_note (n : JsVal) : Prop :=
  exists m i t c,
    n = JObj m
    /\ m !! "content" = Some c /\ m !! "title" = Some t /\ m !! "id" = Some i
    /\ i ≠ JUndefined /\ Js.nullish t = false /\ Js.nullish c = false.

Definition both_bodies : JsVal :=
  JObj (<["id" := JNull]> (<["_id" := JNum 7]> (<["uuid" := JStr "u-1"]>
       (<["content" := JStr "kept"]> (<["body" := JStr "dropped"]> ∅))))).

Definition mongo_note : gmap string JsVal :=
  <["_id" := JStr "65f0"]> (<["title" := JStr "Milk"]> ∅).

Definition numeric_title : JsVal := JObj (<["title" := JNum 42]> ∅).

(** The request that [requestJson] hands to [fetch]. *)
Definition request_of (env : Env) (path : string) (options : RequestInit)
    (signal : option nat) : Request :=
  {| req_url := getApiBaseUrl env ++ path;
     req_method := init_method options;
     req_headers :=
       default ∅ (init_headers options)
       ∪ (if str_truthy (default "" (init_body options))
          then {[ "Content-Type" := "application/json" ]} else ∅)
       ∪ {[ "Accept" := "application/json" ]};
     req_body := init_body options;
     req_signal := signal |}.

(** [contentType.includes("application/json")] *)
Definition isJson (res : Response) : bool :=
  Str.includes (default "" (res_content_type res)) "application/json".

Definition generic_message (res : Response) : string :=
  "Request failed (" ++ pretty (res_status res) ++ ")".


(** The message of the error raised for a response that is not ok, as the
    code chooses it: for a JSON response, the [detail] field of the body
    when it is truthy, else its [message] field when it is truthy, else the
    generic message; for any other response, the raw text when it is not
    empty, else the generic message. *)
Definition error_message (res : Response) : string :=
  if isJson res then
    match res_json res with
    | Fulfilled data =>
        if Js.truthy (Js.get data "detail") then Js.toString (Js.get data "detail")
        else if Js.truthy (Js.get data "message") then Js.toString (Js.get data "message")
        else generic_message res
    | Rejected _ => generic_message res
    end
  else
    match res_text res with
    | Fulfilled text => if str_truthy text then text else generic_message res
    | Rejected _ => generic_message res
    end.

(** What [requestJson] returns for a response that is ok. *)
Definition payload (res : Response) : Result JsVal :=
  if res_status res =? 204 then Ok JNull
  else if isJson res then
    match res_json res with
    | Fulfilled data => Ok data
    | Rejected r => Throw (thrown r)
    end
  else
    match res_text res with
    | Fulfilled text => Ok (JStr text)
    | Rejected r => Throw (thrown r)
    end.


Definition json_200 (body : JsVal) : Response :=
  {| res_status := 200; res_content_type := Some "application/json; charset=utf-8";
     res_json := Fulfilled body; res_text := Fulfilled "" |}.

Definition no_env : Env :=
  {| REACT_APP_API_BASE := None; REACT_APP_BACKEND_URL := None |}.

Definition local_env : Env :=
  {| REACT_APP_API_BASE := Some "http://localhost:3001/"; REACT_APP_BACKEND_URL := None |}.

(** The backend answers [req], asked after [log], with an HTTP status [s]
    that is not in 200-299. *)
Definition http_failure (net : Net) (log : list Request) (req : Request) (s : Z) : Prop :=
  exists res, net log req = Fulfilled res /\ res_ok res = false /\ res_status res = s.

(** The request that [updateNote] makes with [method]. *)
Definition update_request (JSON_stringify : JsVal -> string) (env : Env)
    (id payload : JsVal) (signal : option nat) (method : string) : Request :=
  request_of env ("/notes/" ++ Str.encodeURIComponent (Js.toString id))
    (with_body method (note_body JSON_stringify payload)) signal.




Definition dq : string := String (ascii_of_nat 34) "".

Definition quoted (s : string) : string := dq ++ s ++ dq.

(** [JSON.stringify] on an object [{ title, content }] whose fields are
    strings in which nothing is to be escaped. *)
Definition stringify_plain (v : JsVal) : string :=
  "{" ++ quoted "title" ++ ":" ++ quoted (Js.toString (Js.get v "title")) ++ ","
      ++ quoted "content" ++ ":" ++ quoted (Js.toString (Js.get v "content")) ++ "}".

Definition milk : JsVal :=
  JObj (<["id" := JNum 1]> (<["title" := JStr "Milk"]> (<["content" := JStr "buy"]> ∅))).

Definition empty_response (status : Z) : Response :=
  {| res_status := status; res_content_type := None;
     res_json := Rejected {| rej_name := "SyntaxError"; rej_message := "Unexpected end of JSON input" |};
     res_text := Fulfilled "" |}.

(** A backend that knows [PATCH] only. *)
Definition patch_only : Net :=
  fun _ req =>
    if String.eqb (req_method req) "PATCH" then Fulfilled (json_200 milk)
    else Fulfilled (empty_response 405).


(** A note that the backend finds by its tags. *)
Definition tagged : JsVal :=
  JObj (<["id" := JNum 1]> (<["title" := JStr "Milk"]> (<["content" := JStr "buy"]>
       (<["tags" := JArr [JStr "groceries"]]> ∅)))).

(** A backend whose search looks into the tags of the notes. *)
Definition tag_search : Net :=
  fun _ _ => Fulfilled (json_200 (JArr [tagged])).

(** The user has typed a query. *)
Definition typed (query : string) : AppState := setSearch query initialState.

(** What an aborted [fetch] rejects with. *)
Definition AbortError : JsError :=
  {| err_name := "AbortError"; err_message := "The user aborted a request.";
     err_status := None |}.

(** Two list fetches overlap: the state once the second one has started
    and has canceled the first. *)
Definition superseded : AppState := fst (loadNotes_begin (fst (loadNotes_begin initialState))).

(** ** The rest of the adapter and of the controller *)

(** [getConfiguredApiBaseUrl], for UI diagnostics. *)
Definition getConfiguredApiBaseUrl (env : Env) : string := getApiBaseUrl env.

Definition setBusyMutation (v : bool) (st : AppState) : AppState :=
  mkApp (notes st) (loading st) v (error st) (search st) (modalOpen st)
    (modalMode st) (activeNote st) (serverSearchActive st) (listAbortRef st)
    (searchAbortRef st) (aborted st) (controllers st).

Definition setModalOpen (v : bool) (st : AppState) : AppState :=
  mkApp (notes st) (loading st) (busyMutation st) (error st) (search st) v
    (modalMode st) (activeNote st) (serverSearchActive st) (listAbortRef st)
    (searchAbortRef st) (aborted st) (controllers st).

Definition setModalMode (v : string) (st : AppState) : AppState :=
  mkApp (notes st) (loading st) (busyMutation st) (error st) (search st)
    (modalOpen st) v (activeNote st) (serverSearchActive st) (listAbortRef st)
    (searchAbortRef st) (aborted st) (controllers st).

Definition setActiveNote (v : JsVal) (st : AppState) : AppState :=
  mkApp (notes st) (loading st) (busyMutation st) (error st) (search st)
    (modalOpen st) (modalMode st) v (serverSearchActive st) (listAbortRef st)
    (searchAbortRef st) (aborted st) (controllers st).

Definition openCreate (st : AppState) : AppState :=
  let st := setModalMode "create" st in
  let st := setActiveNote JNull st in
  setModalOpen true st.

Definition openEdit (note : JsVal) (st : AppState) : AppState :=
  let st := setModalMode "edit" st in
  let st := setActiveNote note st in
  setModalOpen true st.

Definition closeModal (st : AppState) : AppState :=
  if busyMutation st then st else setModalOpen false st.

(** [new Error(msg)] *)
Definition Error (msg : string) : JsError :=
  {| err_name := "Error"; err_message := msg; err_status := None |}.

(** [e?.message || dflt] *)
Definition message_or (e : JsError) (dflt : string) : string :=
  Js.toString (JStr (err_message e) || JStr dflt)%js.

Section Handlers.

Variable JSON_stringify : JsVal -> string.

(** [window.confirm], which answers the prompt it is shown. *)
Variable confirm : string -> bool.

Variables (env : Env) (net : Net).

(** The adapter call of [handleSubmitModal]: the body of its [try], up to
    [setModalOpen(false)]. *)
Definition submitCall (st : AppState) (payload : JsVal) : Async unit :=
  if String.eqb (modalMode st) "edit" then
    let id := Js.get (activeNote st) "id" in
    if negb (Js.truthy id) then throw (Error "Cannot edit: missing note id.")
    else _ <- updateNote JSON_stringify env net id payload None ;; ret tt
  else _ <- createNote JSON_stringify env net payload None ;; ret tt.

(** A [handleSubmitModal] that no other event interleaves with. *)
Definition handleSubmitModal (payload : JsVal) (st : AppState) (log : list Request)
    : AppState * list Request :=
  let st := setBusyMutation true st in
  let st := setError "" st in
  let '(st, log) :=
    match submitCall st payload log with
    | (Ok _, log) =>
        let st := setModalOpen false st in
        loadNotes env net st log
    | (Throw e, log) => (setError (message_or e "Action failed.") st, log)
    end in
  (setBusyMutation false st, log).

(** The adapter call of [handleDelete]: the body of its [try], up to the
    reload. *)
Definition deleteCall (note : JsVal) : Async bool :=
  if negb (Js.truthy (Js.get note "id")) then
    throw (Error "Cannot delete: missing note id.")
  else deleteNote env net (Js.get note "id") None.

(** A [handleDelete] that no other event interleaves with. *)
Definition handleDelete (note : JsVal) (st : AppState) (log : list Request)
    : AppState * list Request :=
  let title := (Js.get note "title" || JStr "this note")%js in
  let ok := confirm ("Delete " ++ quoted (Js.toString title) ++ "? This cannot be undone.") in
  if negb ok then (st, log)
  else
    let st := setBusyMutation true st in
    let st := setError "" st in
    let '(st, log) :=
      match deleteCall note log with
      | (Ok _, log) => loadNotes env net st log
      | (Throw e, log) => (setError (message_or e "Delete failed.") st, log)
      end in
    (setBusyMutation false st, log).

(** A [handleResetSearch] that no other event interleaves with. *)
Definition handleResetSearch (st : AppState) (log : list Request)
    : AppState * list Request :=
  let st := setSearch "" st in
  let st := setServerSearchActive false st in
  loadNotes env net st log.

End Handlers.

(** ** The note form, [src/components/NoteModal.js] *)

Module NoteModal.

(** The [useState] cells of the form. *)
Record State : Type := mkState {
  title : JsVal;
  content : JsVal;
  error : string
}.

(** [initial], computed from the note being edited ([null] for a new one) *)
Definition initial (initialNote : JsVal) : JsVal * JsVal :=
  ((Js.get initialNote "title" || JStr "")%js,
   (Js.get initialNote "content" || JStr "")%js).

(** The cells once the effect on [open] has reset them. *)
Definition opened (initialNote : JsVal) : State :=
  {| title := fst (initial initialNote); content := snd (initial initialNote);
     error := "" |}.


Definition setContent (v : string) (st : State) : State :=
  {| title := title st; content := JStr v; error := error st |}.

Definition setError (v : string) (st : State) : State :=
  {| title := title st; content := content st; error := v |}.

(** [submit], up to its [await]: the cells, and the payload that [onSubmit]
    is called with, if it is called. A [title] that is not a string has no
    [trim] method and the call throws. *)
Definition submit (st : State) : Result (State * option JsVal) :=
  match title st with
  | JStr s =>
      let trimmedTitle := Str.trim s in
      if negb (str_truthy trimmedTitle) then Ok (setError "Title is required." st, None)
      else
        Ok (setError "" st,
            Some (JObj (<["content" := content st]>
                       (<["title" := JStr trimmedTitle]> ∅))))
  | _ => Throw (TypeError "title.trim is not a function")
  end.

End NoteModal.

(** The form submitted inside [App], where [onSubmit] is
    [handleSubmitModal]: no other event interleaves. *)
Definition submitForm (JSON_stringify : JsVal -> string) (env : Env) (net : Net)
    (form : NoteModal.State) (st : AppState) (log : list Request)
    : Result (NoteModal.State * AppState * list Request) :=
  match NoteModal.submit form with
  | Ok (form, Some payload) =>
      let '(st, log) := handleSubmitModal JSON_stringify env net payload st log in
      Ok (form, st, log)
  | Ok (form, None) => Ok (form, st, log)
  | Throw e => Throw e
  end.

(** ** The note card, [src/components/NoteCard.js] *)

Module StrSlice.

Fixpoint take (n : nat) (s : string) : string :=
  match n, s with
  | S n', String c r => String c (take n' r)
  | _, _ => EmptyString
  end.

Fixpoint drop (n : nat) (s : string) : string :=
  match n, s with
  | S n', String _ r => drop n' r
  | _, _ => s
  end.

(** An index of [slice] made absolute: a negative one counts from the end,
    and the result is clamped to the string. *)
Definition absolute (len i : Z) : Z :=
  if i <? 0 then Z.max (len + i) 0 else Z.min i len.

(** [s.slice(start, end)] *)
Definition slice (s : string) (start stop : Z) : string :=
  let len := Z.of_nat (String.length s) in
  let from := absolute len start in
  let to := absolute len stop in
  take (Z.to_nat (Z.max (to - from) 0)) (drop (Z.to_nat from) s).

End StrSlice.

Section NoteCard.

(** The one-character string that ends a truncated text (the horizontal
    ellipsis, a single code unit outside the 8-bit alphabet). *)
Variable ellipsis : ascii.

Definition truncate (text : JsVal) (maxLen : Z) : string :=
  let t := Js.toString (text || JStr "")%js in
  if Z.of_nat (String.length t) <=? maxLen then t
  else StrSlice.slice t 0 (maxLen - 1) ++ String ellipsis "".

(** The heading of the card. *)
Definition cardTitle (note : JsVal) : string :=
  let title := (Js.get note "title" || JStr "(Untitled)")%js in
  truncate title 80.

(** The paragraph of the card: [None] stands for the muted [No content]. *)
Definition cardContent (note : JsVal) : option string :=
  let content := (Js.get note "content" || JStr "")%js in
  if Js.truthy content then Some (truncate content 240) else None.

End NoteCard.

(** ** Definitions for the properties of the rest of the code *)

(** The last character of [s] is [c]. *)
Fixpoint ends_with (c : ascii) (s : string) : bool :=
  match s with
  | EmptyString => false
  | String a EmptyString => Ascii.eqb a c
  | String _ r => ends_with c r
  end.

(** Every character of [s] satisfies [p]. *)
Fixpoint all_chars (p : ascii -> bool) (s : string) : bool :=
  match s with
  | EmptyString => true
  | String a r => p a && all_chars p r
  end.

(** The characters of an encoded URI component: the unreserved ones, the
    percent sign and the hexadecimal digits (which are unreserved). *)
Definition component_char (c : ascii) : bool :=
  Str.unreserved c || Ascii.eqb c "%".



(** The controllers named by the refs and the aborted ones have all been
    created. *)
Definition controllers_created (st : AppState) : Prop :=
  (forall c, c ∈ aborted st -> (c < controllers st)%nat)
  /\ (forall c, listAbortRef st = Some c -> (c < controllers st)%nat)
  /\ (forall c, searchAbortRef st = Some c -> (c < controllers st)%nat).

Definition is_digit (c : ascii) : bool :=
  let n := nat_of_ascii c in ((48 <=? n) && (n <=? 57))%nat.

(** The names of the properties that the program reads from a note. *)
Definition note_fields : list string :=
  ["id"; "note_id"; "_id"; "uuid"; "title"; "content"; "body"].

(** Every controller made so far is the one its track holds or has been
    aborted, the two tracks hold different controllers, and the one that
    the list track holds has not been aborted. *)
Definition one_live_controller (st : AppState) : Prop :=
  controllers_created st
  /\ (forall c, listAbortRef st = Some c -> searchAbortRef st ≠ Some c)
  /\ (forall c, listAbortRef st = Some c -> c ∉ aborted st)
  /\ (forall c, (c < controllers st)%nat ->
        c ∈ aborted st \/ listAbortRef st = Some c \/ searchAbortRef st = Some c).

(** One event of the controller: a synchronous piece of a handler, or a
    handler that runs with no other event in between. *)
Inductive step : AppState -> AppState -> Prop :=
  | step_loadNotes_begin st :
      step st (fst (loadNotes_begin st))
  | step_loadNotes_settle r st :
      step st (loadNotes_settle r st)
  | step_onSearchChange v st :
      step st (fst (onSearchChange v st))
  | step_searchTimer_begin st :
      step st (fst (searchTimer_begin st))
  | step_searchTimer_settle r st :
      step st (searchTimer_settle r st)
  | step_openCreate st :
      step st (openCreate st)
  | step_openEdit note st :
      step st (openEdit note st)
  | step_closeModal st :
      step st (closeModal st)
  | step_handleSubmitModal JSON_stringify env net payload st log :
      step st (fst (handleSubmitModal JSON_stringify env net payload st log))
  | step_handleDelete confirm env net note st log :
      step st (fst (handleDelete confirm env net note st log))
  | step_handleResetSearch env net st log :
      step st (fst (handleResetSearch env net st log)).

(** The states that the application can be in. *)
Inductive reachable : AppState -> Prop :=
  | reachable_initial : reachable initialState
  | reachable_step st st' : reachable st -> step st st' -> reachable st'.

(** What the controller keeps of its controllers. *)
Definition tracks (st : AppState) : option nat * option nat * gset nat * nat :=
  (listAbortRef st, searchAbortRef st, aborted st, controllers st).

(** A backend that answers every request with [204 No Content]. *)
Definition no_content : Net := fun _ _ => Fulfilled (empty_response 204).

(** A backend that is down. *)
Definition offline : Net :=
  fun _ _ => Rejected {| rej_name := "TypeError"; rej_message := "Failed to fetch" |}.

Definition yes : string -> bool := fun _ => true.

(** A note whose identifier is the number zero. *)
Definition zero_id : JsVal :=
  JObj (<["id" := JNum 0]> (<["title" := JStr "Zero"]> ∅)).

(** ** Sanity checks of the builtins *)

Example trim_inner_space : Str.trim "  a b  " = "a b".
Proof. reflexivity. Qed.

Example encodeURIComponent_escapes : Str.encodeURIComponent "a b/c" = "a%20b%2Fc".
Proof. reflexivity. Qed.

Example strip_trailing_slashes_all :
  Str.strip_trailing_slashes "http://x/api//" = "http://x/api".
Proof. reflexivity. Qed.

Example toString_array : Js.toString (JArr [JNum 1; JNull; JStr "a"]) = "1,,a".
Proof. reflexivity. Qed.

Example toString_negative : Js.toString (JNum (-12)) = "-12".
Proof. reflexivity. Qed.

Example spread_array : Js.spread (JArr [JNum 7; JNum 8]) !! "1" = Some (JNum 8).
Proof. reflexivity. Qed.

Example getApiBaseUrl_local : getApiBaseUrl local_env = "http://localhost:3001".
Proof. reflexivity. Qed.

Example stringify_plain_milk :
  String.length (note_body stringify_plain milk) = 32%nat.
Proof. reflexivity. Qed.

(** ** Normalization *)

Lemma is_object_cases (raw : JsVal) :
  is_object raw = true -> (exists m, raw = JObj m) \/ (exists xs, raw = JArr xs).
Proof.
  unfold is_object. destruct raw; cbn; rewrite ?andb_false_r;
    intros H; try discriminate H; eauto.
Qed.

Lemma normalizeNote_object (raw : JsVal) :
  is_object raw = true ->
  normalizeNote raw =
    JObj (<["content" := (Js.get raw "content" ?? Js.get raw "body" ?? JStr "")%js]>
         (<["title" := (Js.get raw "title" ?? JStr "")%js]>
         (<["id" := (Js.get raw "id" ?? Js.get raw "note_id" ?? Js.get raw "_id"
                     ?? Js.get raw "uuid" ?? JNull)%js]> (Js.spread raw)))).
Proof.
  intros H. apply is_object_cases in H as [[m ->] | [xs ->]]; reflexivity.
Qed.

Lemma normalizeNote_not_object (raw : JsVal) :
  is_object raw = false -> normalizeNote raw = JNull.
Proof.
  unfold is_object, normalizeNote. intros H.
  destruct raw; cbn in *; rewrite ?orb_true_r; try reflexivity; discriminate H.
Qed.

Lemma normalizeNote_truthy (raw : JsVal) :
  Js.truthy (normalizeNote raw) = is_object raw.
Proof.
  destruct (is_object raw) eqn:E.
  - by rewrite normalizeNote_object.
  - by rewrite normalizeNote_not_object.
Qed.

Lemma normalizeNote_id (raw : JsVal) :
  is_object raw = true ->
  Js.get (normalizeNote raw) "id" =
    (Js.get raw "id" ?? Js.get raw "note_id" ?? Js.get raw "_id"
     ?? Js.get raw "uuid" ?? JNull)%js.
Proof.
  intros H. rewrite normalizeNote_object by done. cbn [Js.get].
  by rewrite !lookup_insert_ne, lookup_insert_eq by done.
Qed.

Lemma normalizeNote_title (raw : JsVal) :
  is_object raw = true ->
  Js.get (normalizeNote raw) "title" = (Js.get raw "title" ?? JStr "")%js.
Proof.
  intros H. rewrite normalizeNote_object by done. cbn [Js.get].
  by rewrite lookup_insert_ne, lookup_insert_eq by done.
Qed.

Lemma normalizeNote_content (raw : JsVal) :
  is_object raw = true ->
  Js.get (normalizeNote raw) "content" =
    (Js.get raw "content" ?? Js.get raw "body" ?? JStr "")%js.
Proof.
  intros H. rewrite normalizeNote_object by done. cbn [Js.get].
  by rewrite lookup_insert_eq.
Qed.

(** The chains of [??] of [normalizeNote] pick the first field that is
    neither [null] nor [undefined]. *)
Lemma id_chain (raw : JsVal) :
  (Js.get raw "id" ?? Js.get raw "note_id" ?? Js.get raw "_id"
   ?? Js.get raw "uuid" ?? JNull)%js
  = first_non_nullish raw ["id"; "note_id"; "_id"; "uuid"] JNull.
Proof.
  cbn [first_non_nullish]. unfold Js.coalesce.
  destruct (Js.nullish (Js.get raw "id")) eqn:E1; rewrite ?E1;
    destruct (Js.nullish (Js.get raw "note_id")) eqn:E2; rewrite ?E2;
    destruct (Js.nullish (Js.get raw "_id")) eqn:E3; rewrite ?E3;
    destruct (Js.nullish (Js.get raw "uuid")) eqn:E4; rewrite ?E4; reflexivity.
Qed.

Lemma content_chain (raw : JsVal) :
  (Js.get raw "content" ?? Js.get raw "body" ?? JStr "")%js
  = first_non_nullish raw ["content"; "body"] (JStr "").
Proof.
  cbn [first_non_nullish]. unfold Js.coalesce.
  destruct (Js.nullish (Js.get raw "content")) eqn:E1; rewrite ?E1;
    destruct (Js.nullish (Js.get raw "body")) eqn:E2; rewrite ?E2; reflexivity.
Qed.

(** C10: when a raw note holds several alias fields, the identifier is the
    first non-nullish of [id], [note_id], [_id], [uuid] (else [null]), the
    title is [title] (else the empty string) and the body is the first
    non-nullish of [content], [body] (else the empty string). *)
Theorem normalizeNote_precedence (raw : JsVal) :
  is_object raw = true ->
  Js.get (normalizeNote raw) "id"
    = first_non_nullish raw ["id"; "note_id"; "_id"; "uuid"] JNull
  /\ Js.get (normalizeNote raw) "title"
    = first_non_nullish raw ["title"] (JStr "")
  /\ Js.get (normalizeNote raw) "content"
    = first_non_nullish raw ["content"; "body"] (JStr "").
Proof.
  intros H.
  rewrite normalizeNote_id, normalizeNote_title, normalizeNote_content by done.
  rewrite id_chain, content_chain. repeat split.
Qed.

Lemma normalizeNote_precedence_witness :
  is_object both_bodies = true
  /\ Js.get (normalizeNote both_bodies) "id" = JNum 7
  /\ Js.get (normalizeNote both_bodies) "content" = JStr "kept".
Proof.
  split; [reflexivity |].
  destruct (normalizeNote_precedence both_bodies eq_refl) as (Hid & _ & Hc).
  split; [exact Hid | exact Hc].
Defined.

Lemma get_lookup (m : gmap string JsVal) (k : string) :
  Js.get (JObj m) k = default JUndefined (m !! k).
Proof. reflexivity. Qed.

(** A property that is missing or holds [null] is skipped by [??]; one that
    holds a JSON value other than [null] is taken. *)
Lemma lookup_nullish (m : gmap string JsVal) (k : string) :
  m !! k ≠ Some JUndefined ->
  Js.nullish (Js.get (JObj m) k) = true /\ (m !! k = None \/ m !! k = Some JNull)
  \/ Js.nullish (Js.get (JObj m) k) = false /\ m !! k = Some (Js.get (JObj m) k).
Proof.
  rewrite get_lookup. intros H.
  destruct (m !! k) as [v|]; [| left; auto].
  destruct v; cbn; auto. by destruct H.
Qed.

Ltac alias k := exists k; split; [repeat constructor | congruence].

(** C6: a raw note object without [id] that holds some of the aliases
    [note_id], [_id], [uuid] (none of them [undefined], as in every parsed
    JSON body) is normalized to a Note whose [id] is the value of one of
    the aliases it holds, namely of the first of them, in that order, that
    is not [null]; with none of the four fields, [id] is [null]. *)
Theorem normalizeNote_id_alias (m : gmap string JsVal) :
  m !! "id" = None ->
  (forall k, k ∈ ["note_id"; "_id"; "uuid"] -> m !! k ≠ Some JUndefined) ->
  Js.get (normalizeNote (JObj m)) "id"
    = first_non_nullish (JObj m) ["note_id"; "_id"; "uuid"] JNull
  /\ (is_Some (m !! "note_id") \/ is_Some (m !! "_id") \/ is_Some (m !! "uuid") ->
   exists k, k ∈ ["note_id"; "_id"; "uuid"]
             /\ m !! k = Some (Js.get (normalizeNote (JObj m)) "id"))
  /\ (m !! "note_id" = None -> m !! "_id" = None -> m !! "uuid" = None ->
      Js.get (normalizeNote (JObj m)) "id" = JNull).
Proof.
  intros Hid Hdef.
  rewrite normalizeNote_id, id_chain by reflexivity. cbn [first_non_nullish].
  replace (Js.get (JObj m) "id") with JUndefined by (by rewrite get_lookup, Hid).
  cbn [Js.nullish].
  split; [reflexivity |]. split.
  - intros Hsome.
    destruct (lookup_nullish m "note_id") as [[-> H1] | [-> H1]];
      [apply Hdef; repeat constructor | | alias "note_id"].
    destruct (lookup_nullish m "_id") as [[-> H2] | [-> H2]];
      [apply Hdef; repeat constructor | | alias "_id"].
    destruct (lookup_nullish m "uuid") as [[-> H3] | [-> H3]];
      [apply Hdef; repeat constructor | | alias "uuid"].
    destruct H1 as [H1 | H1]; [| alias "note_id"].
    destruct H2 as [H2 | H2]; [| alias "_id"].
    destruct H3 as [H3 | H3]; [| alias "uuid"].
    rewrite H1, H2, H3 in Hsome.
    destruct Hsome as [[? ?] | [[? ?] | [? ?]]]; discriminate.
  - intros H1 H2 H3. by rewrite !get_lookup, H1, H2, H3.
Qed.

Lemma mongo_note_json (k : string) :
  k ∈ ["note_id"; "_id"; "uuid"] -> mongo_note !! k ≠ Some JUndefined.
Proof.
  intros Hk.
  repeat (apply elem_of_cons in Hk as [-> | Hk]; [done |]).
  by apply elem_of_nil in Hk.
Qed.

Lemma normalizeNote_id_alias_witness :
  exists k, k ∈ ["note_id"; "_id"; "uuid"]
            /\ mongo_note !! k = Some (JStr "65f0").
Proof.
  apply (proj1 (proj2 (normalizeNote_id_alias mongo_note eq_refl mongo_note_json))).
  right; left. by eexists.
Defined.

Lemma filter_normalizeNote (xs : list JsVal) :
  List.filter Js.truthy (List.map normalizeNote xs)
  = List.map normalizeNote (List.filter is_object xs).
Proof.
  induction xs as [| x xs IH]; [reflexivity |].
  cbn [List.map List.filter]. rewrite normalizeNote_truthy, IH.
  by destruct (is_object x).
Qed.

Lemma normalizeNotesResponse_array (xs : list JsVal) :
  normalizeNotesResponse (JArr xs)
  = Ok (List.map normalizeNote (List.filter is_object xs)).
Proof. unfold normalizeNotesResponse. cbn. by rewrite filter_normalizeNote. Qed.

(** What [normalizeNotesResponse] returns is made of normalized objects. *)
Lemma normalizeNotesResponse_inv (data : JsVal) (out : list JsVal) :
  normalizeNotesResponse data = Ok out ->
  exists xs, out = List.map normalizeNote (List.filter is_object xs).
Proof.
  unfold normalizeNotesResponse.
  destruct (if Js.isArray data then data else _) as [| | | | | xs |] eqn:E;
    try discriminate.
  intros [= <-]. exists xs. apply filter_normalizeNote.
Qed.

Lemma coalesce_not_undefined (a b : JsVal) :
  Js.nullish b = false -> Js.nullish (a ?? b)%js = false.
Proof. intros H. unfold Js.coalesce. by destruct (Js.nullish a) eqn:E. Qed.

Lemma first_non_nullish_defined (raw : JsVal) (keys : list string) (dflt : JsVal) :
  dflt ≠ JUndefined -> first_non_nullish raw keys dflt ≠ JUndefined.
Proof.
  intros H. induction keys as [| k ks IH]; [done |].
  cbn. destruct (Js.nullish (Js.get raw k)) eqn:E; [done |].
  intros E'. by rewrite E' in E.
Qed.

Lemma normalizeNote_canonical (raw : JsVal) :
  is_object raw = true -> canonical_note (normalizeNote raw).
Proof.
  intros H. unfold canonical_note.
  rewrite normalizeNote_object by done. rewrite id_chain.
  eexists _, (first_non_nullish raw ["id"; "note_id"; "_id"; "uuid"] JNull),
    (Js.get raw "title" ?? JStr "")%js,
    (Js.get raw "content" ?? Js.get raw "body" ?? JStr "")%js.
  split; [reflexivity |].
  split; [by rewrite lookup_insert_eq |].
  split; [by rewrite lookup_insert_ne, lookup_insert_eq by done |].
  split; [by rewrite !lookup_insert_ne, lookup_insert_eq by done |].
  split; [by apply first_non_nullish_defined |].
  split; by apply coalesce_not_undefined.
Qed.

(** C9 as stated fails: a raw note whose [title] is a number is kept with
    that number as its [title], which is not a string. *)
Lemma normalizeNotesResponse_title_not_string :
  normalizeNotesResponse (JArr [numeric_title]) = Ok [normalizeNote numeric_title]
  /\ Js.get (normalizeNote numeric_title) "title" = JNum 42
  /\ ~ string_fields (normalizeNote numeric_title).
Proof.
  split; [reflexivity |]. split; [reflexivity |].
  intros (m & t & c & Hm & Ht & _).
  injection Hm as <-. discriminate Ht.
Qed.

(** C9, amended: the elements of a backend array that are not objects
    ([null], strings, numbers, booleans) are dropped and the others are
    normalized in order; every Note of a result is an object with [id],
    [title] and [content] present, [id] being possibly [null] and [title]
    and [content] never [null] nor [undefined]: they are the raw value when
    it is neither, whatever its type, and the empty string otherwise. *)
Theorem normalizeNotesResponse_canonical :
  (forall xs, normalizeNotesResponse (JArr xs)
              = Ok (List.map normalizeNote (List.filter is_object xs)))
  /\ (forall data out, normalizeNotesResponse data = Ok out ->
                       Forall canonical_note out)
  /\ (forall raw, is_object raw = true ->
        Js.get (normalizeNote raw) "title"
          = (if Js.nullish (Js.get raw "title") then JStr "" else Js.get raw "title")
        /\ Js.get (normalizeNote raw) "content"
          = first_non_nullish raw ["content"; "body"] (JStr "")).
Proof.
  split; [exact normalizeNotesResponse_array |]. split.
  - intros data out [xs ->]%normalizeNotesResponse_inv.
    apply Forall_forall. intros n Hn.
    apply list_elem_of_In, in_map_iff in Hn as (raw & <- & Hraw).
    apply filter_In in Hraw as [_ Hraw]. by apply normalizeNote_canonical.
  - intros raw H.
    by rewrite normalizeNote_title, normalizeNote_content, content_chain.
Qed.

Lemma normalizeNotesResponse_canonical_witness :
  normalizeNotesResponse (JArr [JNull; JStr "x"; numeric_title; JNum 3])
    = Ok [normalizeNote numeric_title]
  /\ Forall canonical_note [normalizeNote numeric_title]
  /\ Js.get (normalizeNote numeric_title) "content" = JStr "".
Proof.
  destruct normalizeNotesResponse_canonical as (Harr & Hall & Hraw).
  split; [exact (Harr [JNull; JStr "x"; numeric_title; JNum 3]) |].
  split; [exact (Hall (JArr [numeric_title]) _ eq_refl) |].
  exact (proj2 (Hraw numeric_title eq_refl)).
Defined.

(** ** The request helper *)

Lemma empty_app (s : string) : "" ++ s = s.
Proof. reflexivity. Qed.

Lemma str_truthy_false (s : string) : str_truthy s = false -> s = "".
Proof.
  unfold str_truthy. destruct (String.eqb_spec s ""); [done | discriminate].
Qed.

Lemma request_url (env : Env) (path : string) :
  (if str_truthy (getApiBaseUrl env) then getApiBaseUrl env ++ path else path)
  = getApiBaseUrl env ++ path.
Proof.
  destruct (str_truthy (getApiBaseUrl env)) eqn:E; [reflexivity |].
  by rewrite (str_truthy_false _ E).
Qed.

Section RequestJson.

Variables (env : Env) (net : Net) (path : string) (options : RequestInit).
Variables (signal : option nat) (log : list Request).

Let req := request_of env path options signal.

Lemma requestJson_rejected (r : Rejection) :
  net log req = Rejected r ->
  requestJson env net path options signal log = (Throw (thrown r), (log ++ [req])%list).
Proof.
  intros H. unfold req, request_of in H.
  unfold requestJson, bind, fetch, await. rewrite request_url. by rewrite H.
Qed.

Lemma requestJson_not_ok (res : Response) :
  net log req = Fulfilled res -> res_ok res = false ->
  requestJson env net path options signal log
  = (Throw {| err_name := "Error"; err_message := error_message res;
              err_status := Some (res_status res) |}, (log ++ [req])%list).
Proof.
  intros H Hok. unfold req, request_of in H.
  unfold requestJson, bind, fetch, await. rewrite request_url. rewrite H, Hok. cbn [negb]. unfold throw. do 3 f_equal.
  unfold error_message, isJson, generic_message, Js.or.
  destruct (Str.includes _ _).
  - destruct (res_json res) as [data |]; [| reflexivity].
    destruct (Js.truthy (Js.get data "detail")) eqn:E1; rewrite ?E1; [reflexivity |].
    destruct (Js.truthy (Js.get data "message")) eqn:E2; rewrite ?E2; reflexivity.
  - destruct (res_text res) as [text |]; [| reflexivity].
    by destruct (str_truthy text).
Qed.

Lemma requestJson_ok (res : Response) :
  net log req = Fulfilled res -> res_ok res = true ->
  requestJson env net path options signal log = (payload res, (log ++ [req])%list).
Proof.
  intros H Hok. unfold req, request_of in H.
  unfold requestJson, bind, fetch, await. rewrite request_url. rewrite H, Hok. cbn [negb]. unfold payload, isJson, ret.
  destruct (res_status res =? 204); [reflexivity |].
  destruct (Str.includes _ _).
  - by destruct (res_json res).
  - by destruct (res_text res).
Qed.

(** Every call makes exactly one request. *)
Lemma requestJson_log :
  snd (requestJson env net path options signal log) = (log ++ [req])%list.
Proof.
  destruct (net log req) as [res | r] eqn:H.
  - destruct (res_ok res) eqn:Hok.
    + by rewrite (requestJson_ok res).
    + by rewrite (requestJson_not_ok res).
  - by rewrite (requestJson_rejected r).
Qed.


End RequestJson.




(** ** Listing *)

(** C5: [list()] returns the same normalized sequence of Notes whether the
    body of the response is the bare array [xs], the object [{items: xs}]
    or the object [{notes: xs}]. *)
Theorem listNotes_envelopes (env : Env) (net : Net) (signal : option nat)
    (log : list Request) (res : Response) (xs : list JsVal) (body : JsVal) :
  net log (request_of env "/notes" GET signal) = Fulfilled res ->
  res_ok res = true -> res_status res ≠ 204 -> isJson res = true ->
  res_json res = Fulfilled body ->
  body = JArr xs
  \/ body = JObj (<["items" := JArr xs]> ∅)
  \/ body = JObj (<["notes" := JArr xs]> ∅) ->
  listNotes env net signal log
  = (Ok (List.map normalizeNote (List.filter is_object xs)),
     (log ++ [request_of env "/notes" GET signal])%list).
Proof.
  intros Hnet Hok Hs Hj Hbody Hshape.
  unfold listNotes, bind. rewrite (requestJson_ok _ _ _ _ _ _ res) by done.
  unfold payload. rewrite Hj, Hbody.
  destruct (Z.eqb_spec (res_status res) 204) as [| _]; [done |].
  unfold call. f_equal.
  destruct Hshape as [-> | [-> | ->]].
  - apply normalizeNotesResponse_array.
  - unfold normalizeNotesResponse. cbn [Js.isArray].
    rewrite !get_lookup, lookup_insert_eq. cbn. by rewrite filter_normalizeNote.
  - unfold normalizeNotesResponse. cbn [Js.isArray].
    rewrite !get_lookup, lookup_insert_eq, lookup_insert_ne, lookup_empty by done.
    cbn. by rewrite filter_normalizeNote.
Qed.

Lemma listNotes_envelopes_witness :
  listNotes no_env (fun _ _ => Fulfilled (json_200 (JObj (<["notes" := JArr [milk; JStr "x"]]> ∅))))
    None []
  = (Ok [normalizeNote milk], [request_of no_env "/notes" GET None]).
Proof.
  apply (listNotes_envelopes no_env
           (fun _ _ => Fulfilled (json_200 (JObj (<["notes" := JArr [milk; JStr "x"]]> ∅))))
           None [] (json_200 (JObj (<["notes" := JArr [milk; JStr "x"]]> ∅)))
           [milk; JStr "x"] (JObj (<["notes" := JArr [milk; JStr "x"]]> ∅)));
    [reflexivity | reflexivity | discriminate | reflexivity | reflexivity |].
  right; right; reflexivity.
Defined.

(** ** Updating *)

Section Update.

Variable JSON_stringify : JsVal -> string.
Variables (env : Env) (net : Net) (id payload : JsVal) (signal : option nat).
Variable log : list Request.

Let put := update_request JSON_stringify env id payload signal "PUT".

Lemma http_failure_dec :
  http_failure net log put 405 \/ ~ http_failure net log put 405.
Proof.
  unfold http_failure. destruct (net log put) as [res | r] eqn:H.
  - destruct (res_ok res) eqn:Hok.
    + right. intros (res' & [= <-] & Hok' & _). congruence.
    + destruct (Z.eq_dec (res_status res) 405) as [Hs | Hs].
      * left. eauto.
      * right. intros (res' & [= <-] & _ & Hs'). done.
  - right. intros (res' & [=] & _).
Qed.


End Update.


(** ** Searching *)






Section Search.

Variables (env : Env) (net : Net) (query : JsVal) (signal : option nat).
Variable log : list Request.

Let q := Str.encodeURIComponent (Str.trim (Js.toString (query || JStr "")%js)).
Let first := request_of env ("/notes/search?q=" ++ q) GET signal.
Let second := request_of env ("/notes/search?query=" ++ q) GET signal.


End Search.


(** ** The view controller *)


(** The displayed notes do not depend on the flag. *)
Lemma visibleNotes_flag (b : bool) (st : AppState) :
  visibleNotes (setServerSearchActive b st) = visibleNotes st.
Proof. reflexivity. Qed.

(** What a successful server search leaves in the state. *)
Lemma searchTimer_settle_ok (results : list JsVal) (st : AppState) :
  serverSearchActive (searchTimer_settle (Ok results) st) = true
  /\ notes (searchTimer_settle (Ok results) st) = results
  /\ visibleNotes (searchTimer_settle (Ok results) st)
     = filterClientSide results (JStr (search st)).
Proof. repeat split. Qed.

(** C1 fails on the code: after a server search for [groceries] that
    returns a note found by its tags, the flag is set and the state holds
    the result of the server, but the displayed notes are that result
    filtered once more by the client-side filter, and the note is not
    shown. *)
Theorem visibleNotes_filters_server_results :
  let st := fst (searchTimer no_env tag_search "groceries" (typed "groceries") []) in
  searchEffect (typed "groceries") = (typed "groceries", Some "groceries")
  /\ serverSearchActive st = true
  /\ statusLabel st = "Server search"
  /\ notes st = [normalizeNote tagged]
  /\ visibleNotes st = []
  /\ visibleNotes st ≠ notes st.
Proof.
  repeat split.
  intros H. apply (f_equal (@List.length JsVal)) in H. discriminate H.
Qed.

(** A canceled list fetch leaves every cell but [loading] as it was. *)
Lemma loadNotes_settle_abort (e : JsError) (st : AppState) :
  err_name e = "AbortError" ->
  loadNotes_settle (Throw e) st = setLoading false st.
Proof. intros H. unfold loadNotes_settle. by rewrite H. Qed.

(** C2 fails on the code: when a list fetch is superseded by a newer one
    and rejects as aborted, its [finally] block still runs; the notes and
    the error message are left as they were, but [loading] is reset to
    [false] although the newer fetch, which had set it, is still pending. *)
Theorem loadNotes_canceled_resets_loading :
  let st := loadNotes_settle (Throw AbortError) superseded in
  listAbortRef superseded = Some 1%nat
  /\ aborted superseded = {[ 0%nat ]}
  /\ loading superseded = true
  /\ loading st = false
  /\ notes st = notes superseded
  /\ error st = error superseded
  /\ st ≠ superseded.
Proof.
  repeat split.
  intros H. apply (f_equal loading) in H. discriminate H.
Qed.

(** The example of the specification: the filter text [milk] keeps exactly
    the first of the two notes. *)
Example filterClientSide_milk :
  let first := JObj (<["title" := JStr "Milk"]> (<["content" := JStr "buy"]> ∅)) in
  let second := JObj (<["title" := JStr "Work"]> (<["content" := JStr "meeting notes"]> ∅)) in
  filterClientSide [first; second] (JStr "milk") = [first].
Proof. reflexivity. Qed.

(** An uninterrupted [loadNotes] replaces the notes and clears [loading]. *)
Example loadNotes_run :
  let st := fst (loadNotes no_env tag_search initialState []) in
  notes st = [normalizeNote tagged] /\ loading st = false /\ error st = "".
Proof. repeat split. Qed.

(** ** The base URL and the requests of the adapter *)

Lemma strip_trailing_slashes_end (s : string) :
  ends_with "/" (Str.strip_trailing_slashes s) = false.
Proof.
  induction s as [| c r IH]; [reflexivity |].
  cbn [Str.strip_trailing_slashes].
  destruct (Str.strip_trailing_slashes r) as [| a r'] eqn:E.
  - destruct (Ascii.eqb c "/") eqn:Ec; [reflexivity |]. cbn. exact Ec.
  - exact IH.
Qed.

Lemma truthy_string (s : string) : s ≠ "" -> Js.truthy (JStr s) = true.
Proof. intros H. cbn. by destruct (String.eqb_spec s ""). Qed.

Lemma or_truthy (a b : JsVal) : Js.truthy a = true -> (a || b)%js = a.
Proof. intros H. unfold Js.or. by rewrite H. Qed.

Lemma or_falsy (a b : JsVal) : Js.truthy a = false -> (a || b)%js = b.
Proof. intros H. unfold Js.or. by rewrite H. Qed.

(** X1: the configured base URL never ends with a slash, so that joining
    it with a path that starts with one gives no doubled slash; it comes
    from [REACT_APP_API_BASE] whenever that is set and not empty (even if
    it is made of slashes only, which gives the empty, same-origin base)
    and from [REACT_APP_BACKEND_URL] otherwise. *)
Theorem getApiBaseUrl_shape (env : Env) :
  ends_with "/" (getConfiguredApiBaseUrl env) = false
  /\ (forall p, REACT_APP_API_BASE env = Some p -> p ≠ "" ->
        getConfiguredApiBaseUrl env = Str.strip_trailing_slashes p)
  /\ (REACT_APP_API_BASE env = None \/ REACT_APP_API_BASE env = Some "" ->
        getConfiguredApiBaseUrl env
        = Str.strip_trailing_slashes (default "" (REACT_APP_BACKEND_URL env))).
Proof.
  unfold getConfiguredApiBaseUrl, getApiBaseUrl, normalizeBaseUrl.
  split; [| split].
  - destruct (negb _); [reflexivity | apply strip_trailing_slashes_end].
  - intros p -> Hp. cbn [env_val].
    rewrite (or_truthy (JStr p)) by by apply truthy_string.
    rewrite (or_truthy (JStr p)) by by apply truthy_string.
    by rewrite truthy_string.
  - intros Hp.
    assert (Hor : forall b, (env_val (REACT_APP_API_BASE env) || b)%js = b).
    { intros b. by destruct Hp as [-> | ->]. }
    rewrite Hor. destruct (REACT_APP_BACKEND_URL env) as [f |]; [| reflexivity].
    cbn [env_val default]. destruct (String.eqb_spec f "") as [-> | Hf]; [reflexivity |].
    rewrite (or_truthy (JStr f)) by by apply truthy_string.
    by rewrite truthy_string.
Qed.

Lemma getApiBaseUrl_shape_witness :
  getConfiguredApiBaseUrl
    {| REACT_APP_API_BASE := Some "//"; REACT_APP_BACKEND_URL := Some "http://b" |} = "".
Proof.
  exact (proj1 (proj2 (getApiBaseUrl_shape
    {| REACT_APP_API_BASE := Some "//"; REACT_APP_BACKEND_URL := Some "http://b" |}))
    "//" eq_refl ltac:(discriminate)).
Defined.

(** X2: the headers of the request that the helper makes: a header of the
    caller wins; otherwise [Content-Type] is [application/json] exactly
    when there is a body that is not empty, [Accept] is always
    [application/json], and there is no other header. *)
Theorem requestJson_headers (env : Env) (net : Net) (path : string)
    (options : RequestInit) (signal : option nat) (log : list Request) :
  exists req,
    snd (requestJson env net path options signal log) = (log ++ [req])%list
    /\ req_url req = getApiBaseUrl env ++ path
    /\ req_method req = init_method options
    /\ req_body req = init_body options
    /\ req_signal req = signal
    /\ forall k,
         req_headers req !! k =
           match default ∅ (init_headers options) !! k with
           | Some v => Some v
           | None =>
               if String.eqb k "Content-Type"
                  && str_truthy (default "" (init_body options))
               then Some "application/json"
               else if String.eqb k "Accept" then Some "application/json"
               else None
           end.
Proof.
  exists (request_of env path options signal).
  split; [apply requestJson_log |]. do 4 (split; [reflexivity |]).
  intros k. cbn [request_of req_headers].
  rewrite !lookup_union.
  assert (Hct : (if str_truthy (default "" (init_body options))
                 then ({[ "Content-Type" := "application/json" ]} : gmap string string)
                 else ∅) !! k
                = if String.eqb k "Content-Type"
                     && str_truthy (default "" (init_body options))
                  then Some "application/json" else None).
  { destruct (String.eqb_spec k "Content-Type") as [-> | Hk]; cbn [andb];
      destruct (str_truthy _); try reflexivity.
    by rewrite lookup_singleton_ne. }
  assert (Hacc : ({[ "Accept" := "application/json" ]} : gmap string string) !! k
                 = if String.eqb k "Accept" then Some "application/json" else None).
  { destruct (String.eqb_spec k "Accept") as [-> | Hk]; [reflexivity |].
    by rewrite lookup_singleton_ne. }
  rewrite Hct, Hacc.
  destruct (default ∅ (init_headers options) !! k) as [v |];
    destruct (String.eqb k "Content-Type" && _);
    destruct (String.eqb k "Accept"); reflexivity.
Qed.



(** ** Deleting and creating *)

Lemma all_chars_excludes (p : ascii -> bool) (c : ascii) (s : string) :
  all_chars p s = true -> p c = false -> Str.includes s (String c "") = false.
Proof.
  intros Hs Hc. induction s as [| a r IH]; [reflexivity |].
  cbn in Hs. apply andb_true_iff in Hs as [Ha Hr].
  cbn. rewrite (IH Hr), orb_false_r.
  destruct (Ascii.eqb_spec a c) as [-> |]; [congruence | reflexivity].
Qed.

Lemma hex_digit_unreserved (n : nat) :
  (n < 16)%nat -> Str.unreserved (Str.hex_digit n) = true.
Proof.
  intros H. do 16 (destruct n as [| n]; [reflexivity |]). lia.
Qed.

Lemma encodeURIComponent_chars (s : string) :
  all_chars component_char (Str.encodeURIComponent s) = true.
Proof.
  induction s as [| c r IH]; [reflexivity |].
  cbn [Str.encodeURIComponent].
  destruct (Str.unreserved c) eqn:E; cbn [all_chars].
  - unfold component_char at 1. by rewrite E, IH.
  - rewrite IH. unfold component_char.
    pose proof (nat_ascii_bounded c) as Hb.
    rewrite !hex_digit_unreserved; [reflexivity | |].
    + apply Nat.mod_upper_bound. lia.
    + apply Nat.Div0.div_lt_upper_bound. lia.
Qed.

(** X4: [delete] makes exactly one request: a [DELETE] without body, with
    the [Accept] header only, to the base URL followed by [/notes/] and the
    encoded identifier, in which no slash, question mark or hash is left;
    it never returns anything but [true]. *)
Theorem deleteNote_request (env : Env) (net : Net) (id : JsVal)
    (signal : option nat) (log : list Request) :
  exists segment,
    snd (deleteNote env net id signal log)
    = (log ++ [{| req_url := getApiBaseUrl env ++ "/notes/" ++ segment;
                  req_method := "DELETE";
                  req_headers := {[ "Accept" := "application/json" ]};
                  req_body := None; req_signal := signal |}])%list
    /\ Str.includes segment "/" = false
    /\ Str.includes segment "?" = false
    /\ Str.includes segment "#" = false
    /\ forall b, fst (deleteNote env net id signal log) = Ok b -> b = true.
Proof.
  exists (Str.encodeURIComponent (Js.toString id)).
  pose proof (encodeURIComponent_chars (Js.toString id)) as Hc.
  split; [| split; [| split; [| split]]];
    try (by apply (all_chars_excludes component_char)).
  - unfold deleteNote, bind.
    pose proof (requestJson_log env net
      ("/notes/" ++ Str.encodeURIComponent (Js.toString id))
      {| init_method := "DELETE"; init_body := None; init_headers := None |}
      signal log) as Hl.
    destruct (requestJson _ _ _ _ _ log) as [[data | e] l']; cbn in Hl |- *;
      rewrite Hl; unfold request_of; cbn; do 2 f_equal; f_equal;
      by rewrite (left_id ∅ _), (left_id ∅ _).
  - intros b. unfold deleteNote, bind, ret.
    destruct (requestJson _ _ _ _ _ log) as [[data | e] l']; cbn; congruence.
Qed.

(** X5: a [delete] answered with [204 No Content] succeeds, whatever the
    headers of the answer and without its body being read. *)
Theorem deleteNote_no_content (env : Env) (net : Net) (id : JsVal)
    (signal : option nat) (log : list Request) (res : Response) :
  net log (request_of env ("/notes/" ++ Str.encodeURIComponent (Js.toString id))
             {| init_method := "DELETE"; init_body := None; init_headers := None |}
             signal) = Fulfilled res ->
  res_status res = 204 ->
  fst (deleteNote env net id signal log) = Ok true.
Proof.
  intros Hnet Hs. unfold deleteNote, bind.
  rewrite (requestJson_ok _ _ _ _ _ _ res); [| done | by unfold res_ok; rewrite Hs].
  unfold payload. by rewrite Hs.
Qed.

Lemma deleteNote_no_content_witness :
  fst (deleteNote no_env no_content (JStr "a/b") None []) = Ok true.
Proof.
  exact (deleteNote_no_content no_env no_content (JStr "a/b") None []
           (empty_response 204) eq_refl eq_refl).
Defined.

Lemma get_insert (m : gmap string JsVal) (k k' : string) (v : JsVal) :
  Js.get (JObj (<[k := v]> m)) k'
  = if String.eqb k k' then v else Js.get (JObj m) k'.
Proof.
  rewrite !get_lookup. destruct (String.eqb_spec k k') as [-> | H].
  - by rewrite lookup_insert_eq.
  - by rewrite lookup_insert_ne.
Qed.



Lemma normalized_or_null (data : JsVal) :
  (normalizeNote data || JNull)%js = JNull
  \/ canonical_note (normalizeNote data || JNull)%js.
Proof.
  destruct (is_object data) eqn:E.
  - right. rewrite or_truthy by by rewrite normalizeNote_truthy.
    by apply normalizeNote_canonical.
  - left. by rewrite normalizeNote_not_object.
Qed.

(** X7: what [create] and [update] return, when they return, is [null] or
    a Note with [id], [title] and [content] present and [title] and
    [content] neither [null] nor [undefined]. *)
Theorem mutation_result (JSON_stringify : JsVal -> string) (env : Env) (net : Net)
    (id p : JsVal) (signal : option nat) (log log' : list Request) (v : JsVal) :
  createNote JSON_stringify env net p signal log = (Ok v, log')
  \/ updateNote JSON_stringify env net id p signal log = (Ok v, log') ->
  v = JNull \/ canonical_note v.
Proof.
  intros [H | H].
  - unfold createNote, bind, ret in H.
    destruct (requestJson _ _ _ _ _ log) as [[data | e] l']; [| discriminate].
    injection H as <- _. apply normalized_or_null.
  - unfold updateNote, try_catch, bind, ret, throw in H.
    destruct (requestJson env net _ (with_body "PUT" _) signal log)
      as [[data | e] l'].
    + injection H as <- _. apply normalized_or_null.
    + destruct (decide (err_status e = Some 405)); [| discriminate].
      destruct (requestJson _ _ _ _ _ l') as [[data | e'] l'']; [| discriminate].
      injection H as <- _. apply normalized_or_null.
Qed.

Lemma mutation_result_witness :
  normalizeNote milk = JNull \/ canonical_note (normalizeNote milk).
Proof.
  apply (mutation_result stringify_plain no_env patch_only (JNum 1) milk None []
           [update_request stringify_plain no_env (JNum 1) milk None "PUT";
            update_request stringify_plain no_env (JNum 1) milk None "PATCH"]).
  right. reflexivity.
Defined.

(** ** More on normalization *)

Lemma pretty_N_char_digit (x : N) : is_digit (pretty_N_char x) = true.
Proof.
  unfold pretty_N_char.
  repeat match goal with |- context [match ?y with _ => _ end] => destruct y end;
    reflexivity.
Qed.

Lemma pretty_N_go_digits (x : N) (s : string) :
  all_chars is_digit s = true -> all_chars is_digit (pretty_N_go x s) = true.
Proof.
  revert s. induction (N.lt_wf_0 x) as [x _ IH]. intros s Hs.
  destruct (decide (x = 0%N)) as [-> | Hx]; [by rewrite pretty_N_go_0 |].
  rewrite pretty_N_go_step by lia. apply IH.
  - apply N.div_lt; lia.
  - cbn. by rewrite pretty_N_char_digit, Hs.
Qed.

Lemma pretty_nat_digits (i : nat) : all_chars is_digit (pretty i) = true.
Proof.
  unfold pretty, pretty_nat, pretty, pretty_N.
  destruct (decide (N.of_nat i = 0%N)); [reflexivity |].
  by apply pretty_N_go_digits.
Qed.

(** The indices that a spread copies from an array are none of the fields
    of a note. *)
Lemma spread_array_field (xs : list JsVal) (k : string) :
  all_chars is_digit k = false -> Js.spread (JArr xs) !! k = None.
Proof.
  intros Hk. cbn [Js.spread]. apply not_elem_of_list_to_map_1.
  intros Hin. apply list_elem_of_fmap in Hin as ([k' v] & -> & Hin).
  apply elem_of_lookup_imap in Hin as (i & x & [= -> ->] & _).
  cbn in Hk. by rewrite pretty_nat_digits in Hk.
Qed.

Lemma spread_get (raw : JsVal) (k : string) :
  is_object raw = true -> k ∈ note_fields ->
  default JUndefined (Js.spread raw !! k) = Js.get raw k.
Proof.
  intros H Hk. apply is_object_cases in H as [[m ->] | [xs ->]]; [reflexivity |].
  rewrite spread_array_field; [reflexivity |].
  unfold note_fields in Hk.
  repeat (apply elem_of_cons in Hk as [-> | Hk]; [reflexivity |]).
  by apply elem_of_nil in Hk.
Qed.

Lemma coalesce_defined (a b : JsVal) : Js.nullish a = false -> (a ?? b)%js = a.
Proof. intros H. unfold Js.coalesce. by rewrite H. Qed.

Lemma coalesce_nullish (a b : JsVal) : Js.nullish a = true -> (a ?? b)%js = b.
Proof. intros H. unfold Js.coalesce. by rewrite H. Qed.

Lemma first_non_nullish_null (raw : JsVal) (k : string) (ks : list string) :
  Js.nullish (first_non_nullish raw (k :: ks) JNull) = true ->
  first_non_nullish raw ks JNull = first_non_nullish raw (k :: ks) JNull.
Proof.
  cbn [first_non_nullish].
  destruct (Js.nullish (Js.get raw k)) eqn:E; [done |]. intros H. congruence.
Qed.

(** X8: normalization is idempotent: normalizing a Note again changes
    nothing. *)
Theorem normalizeNote_idempotent (raw : JsVal) :
  normalizeNote (normalizeNote raw) = normalizeNote raw.
Proof.
  destruct (is_object raw) eqn:Hobj;
    [| by rewrite (normalizeNote_not_object raw)].
  rewrite (normalizeNote_object raw) by done.
  rewrite !id_chain, !content_chain.
  set (i := first_non_nullish raw ["id"; "note_id"; "_id"; "uuid"] JNull).
  set (t := (Js.get raw "title" ?? JStr "")%js).
  set (c := first_non_nullish raw ["content"; "body"] (JStr "")).
  assert (Hc : Js.nullish c = false).
  { subst c. rewrite <- content_chain. by apply coalesce_not_undefined. }
  assert (Ht : Js.nullish t = false) by by apply coalesce_not_undefined.
  rewrite normalizeNote_object by reflexivity. cbn [Js.spread].
  rewrite !get_insert. cbn [String.eqb Ascii.eqb Bool.eqb].
  rewrite !get_lookup.
  rewrite !(spread_get raw) by (done || (unfold note_fields; set_solver)).
  assert (Hi : (i ?? Js.get raw "note_id" ?? Js.get raw "_id" ?? Js.get raw "uuid"
                ?? JNull)%js = i).
  { destruct (Js.nullish i) eqn:Ei; [| by rewrite !(coalesce_defined i)].
    rewrite (coalesce_nullish i) by done.
    pose proof (first_non_nullish_null raw "id" _ Ei) as Hi. fold i in Hi.
    rewrite <- Hi. cbn [first_non_nullish]. unfold Js.coalesce.
    destruct (Js.nullish (Js.get raw "note_id")) eqn:E2; rewrite ?E2;
      destruct (Js.nullish (Js.get raw "_id")) eqn:E3; rewrite ?E3;
      destruct (Js.nullish (Js.get raw "uuid")) eqn:E4; rewrite ?E4; reflexivity. }
  rewrite Hi, (coalesce_defined t), !(coalesce_defined c) by done.
  f_equal. apply map_eq. intros k. rewrite !lookup_insert.
  repeat case_decide; reflexivity.
Qed.

(** X9: normalization passes every other field of a raw note through: the
    Note has the fields of the raw object, unchanged, but for [id], [title]
    and [content]. *)
Theorem normalizeNote_passthrough (m : gmap string JsVal) (k : string) :
  k ≠ "id" -> k ≠ "title" -> k ≠ "content" ->
  Js.get (normalizeNote (JObj m)) k = Js.get (JObj m) k.
Proof.
  intros H1 H2 H3. rewrite normalizeNote_object by reflexivity.
  rewrite !get_insert.
  destruct (String.eqb_spec "content" k); [congruence |].
  destruct (String.eqb_spec "title" k); [congruence |].
  destruct (String.eqb_spec "id" k); [congruence | reflexivity].
Qed.

Lemma normalizeNote_passthrough_witness :
  Js.get (normalizeNote tagged) "tags" = JArr [JStr "groceries"].
Proof.
  exact (normalizeNote_passthrough _ "tags" ltac:(discriminate) ltac:(discriminate)
           ltac:(discriminate)).
Defined.

(** X10: the envelope of a list is read permissively: a body that is not an
    array and has no truthy [items] or [notes] ([null], a text, an object
    without them) is the empty list; [items] wins over [notes] whenever it
    is truthy, even when it is the empty array; and the only failure is a
    [TypeError], for an object whose chosen field is truthy and not an
    array. *)
Theorem normalizeNotesResponse_permissive :
  (forall data, Js.isArray data = false ->
     Js.truthy (Js.get data "items") = false ->
     Js.truthy (Js.get data "notes") = false ->
     normalizeNotesResponse data = Ok [])
  /\ (forall m xs, m !! "items" = Some (JArr xs) ->
        normalizeNotesResponse (JObj m)
        = Ok (List.map normalizeNote (List.filter is_object xs)))
  /\ (forall data e, normalizeNotesResponse data = Throw e ->
        e = TypeError "list.map is not a function"
        /\ exists m v, data = JObj m /\ Js.truthy v = true /\ Js.isArray v = false
             /\ (m !! "items" = Some v
                 \/ Js.truthy (Js.get data "items") = false /\ m !! "notes" = Some v)).
Proof.
  split; [| split].
  - intros data Ha Hi Hn. unfold normalizeNotesResponse.
    by rewrite Ha, (or_falsy _ _ Hi), (or_falsy _ _ Hn).
  - intros m xs Hm. unfold normalizeNotesResponse. cbn [Js.isArray].
    rewrite get_lookup, Hm. cbn. by rewrite filter_normalizeNote.
  - intros data e. unfold normalizeNotesResponse.
    destruct (Js.isArray data) eqn:Ha; [by destruct data |].
    destruct (Js.truthy (Js.get data "items")) eqn:Hi.
    + rewrite (or_truthy _ _ Hi), (or_truthy _ _ Hi).
      destruct data as [| | | | | | m]; try discriminate Hi.
      rewrite get_lookup in *.
      destruct (m !! "items") as [v |] eqn:Hv; [| discriminate Hi]. cbn in *.
      destruct v; intros [= <-]; (split; [reflexivity |]);
        eexists m, _; (split; [reflexivity |]); eauto.
    + rewrite (or_falsy _ _ Hi).
      destruct (Js.truthy (Js.get data "notes")) eqn:Hn.
      * rewrite (or_truthy _ _ Hn).
        destruct data as [| | | | | | m]; try discriminate Hn.
        rewrite get_lookup in Hn |- *.
        destruct (m !! "notes") as [v |] eqn:Hv; [| discriminate Hn]. cbn in *.
        destruct v; intros [= <-]; (split; [reflexivity |]);
          eexists m, _; (split; [reflexivity |]); eauto.
      * rewrite (or_falsy _ _ Hn). discriminate.
Qed.

Lemma normalizeNotesResponse_permissive_witness :
  normalizeNotesResponse (JStr "<html>") = Ok []
  /\ normalizeNotesResponse
       (JObj (<["items" := JArr []]> (<["notes" := JArr [milk]]> ∅))) = Ok [].
Proof.
  destruct normalizeNotesResponse_permissive as (H1 & H2 & _). split.
  - exact (H1 (JStr "<html>") eq_refl eq_refl eq_refl).
  - exact (H2 (<["items" := JArr []]> (<["notes" := JArr [milk]]> ∅)) [] eq_refl).
Defined.

(** X11: a list answered without a JSON body, with [204 No Content] or
    with a text, is the empty list and not a failure. *)
Theorem listNotes_no_json (env : Env) (net : Net) (signal : option nat)
    (log : list Request) (res : Response) :
  net log (request_of env "/notes" GET signal) = Fulfilled res ->
  res_ok res = true ->
  res_status res = 204
  \/ (isJson res = false /\ exists text, res_text res = Fulfilled text) ->
  listNotes env net signal log
  = (Ok [], (log ++ [request_of env "/notes" GET signal])%list).
Proof.
  intros Hnet Hok Hcase. unfold listNotes, bind.
  rewrite (requestJson_ok _ _ _ _ _ _ res) by done. unfold payload.
  destruct Hcase as [-> | [-> [text ->]]]; [reflexivity |].
  by destruct (_ =? 204).
Qed.

Lemma listNotes_no_json_witness :
  listNotes no_env no_content None []
  = (Ok [], [request_of no_env "/notes" GET None]).
Proof.
  apply (listNotes_no_json no_env no_content None [] (empty_response 204));
    [reflexivity | reflexivity | by left].
Defined.

(** ** Trimming, and what ignores white space and case *)









Lemma filter_idempotent {A} (f : A -> bool) (l : list A) :
  List.filter f (List.filter f l) = List.filter f l.
Proof.
  induction l as [| x l IH]; [reflexivity |]. cbn.
  destruct (f x) eqn:E; [| exact IH]. cbn. by rewrite E, IH.
Qed.

Lemma filter_is_sublist {A} (f : A -> bool) (l : list A) :
  sublist (List.filter f l) l.
Proof.
  induction l as [| x l IH]; [constructor |]. cbn.
  destruct (f x); by constructor.
Qed.

(** X13: the client-side filter only selects: what it returns is a
    subsequence of the notes, in their order, and filtering it again with
    the same text changes nothing. *)
Theorem filterClientSide_selects (notes : list JsVal) (query : JsVal) :
  sublist (filterClientSide notes query) notes
  /\ filterClientSide (filterClientSide notes query) query
     = filterClientSide notes query.
Proof.
  unfold filterClientSide.
  destruct (negb (str_truthy _)) eqn:E; rewrite ?E; [done |].
  split; [apply filter_is_sublist | apply filter_idempotent].
Qed.

Lemma toLowerCase_empty (s : string) : Str.toLowerCase s = "" <-> s = "".
Proof. split; [| by intros ->]. by destruct s. Qed.





(** ** The controller: loading and its controllers *)

Lemma message_or_nonempty (e : JsError) (dflt : string) :
  dflt ≠ "" -> message_or e dflt ≠ "".
Proof.
  intros H. unfold message_or, Js.or. cbn.
  destruct (String.eqb_spec (err_message e) ""); cbn; done.
Qed.

Lemma listNotes_log (env : Env) (net : Net) (signal : option nat) (log : list Request) :
  snd (listNotes env net signal log)
  = (log ++ [request_of env "/notes" GET signal])%list.
Proof.
  unfold listNotes, bind, call.
  pose proof (requestJson_log env net "/notes" GET signal log) as Hl.
  destruct (requestJson _ _ _ _ _ log) as [[data | e] l']; exact Hl.
Qed.

(** X15: a list load that nothing interrupts makes one [GET] of the
    collection with the signal of a new controller and ends with [loading]
    off; on success the notes are replaced and no error is shown; on
    failure the notes are kept and, unless the failure is a cancellation,
    the error shown is not empty. *)
Theorem loadNotes_outcome (env : Env) (net : Net) (st : AppState) (log : list Request) :
  let c := controllers st in
  let st' := fst (loadNotes env net st log) in
  snd (loadNotes env net st log)
    = (log ++ [request_of env "/notes" GET (Some c)])%list
  /\ loading st' = false
  /\ search st' = search st
  /\ match fst (listNotes env net (Some c) log) with
     | Ok data => notes st' = data /\ error st' = ""
     | Throw e =>
         notes st' = notes st
         /\ (err_name e ≠ "AbortError" -> error st' ≠ "")
         /\ (err_name e = "AbortError" -> error st' = "")
     end.
Proof.
  cbn zeta. unfold loadNotes.
  assert (Hb : loadNotes_begin st
               = (fst (loadNotes_begin st), controllers st)).
  { unfold loadNotes_begin. by destruct (listAbortRef st). }
  rewrite Hb.
  pose proof (listNotes_log env net (Some (controllers st)) log) as Hl.
  destruct (listNotes env net (Some (controllers st)) log) as [r l'].
  cbn in Hl. subst l'. cbn [fst snd].
  split; [reflexivity |]. split; [by destruct r |].
  split; [destruct r as [data | e]; cbn;
          [by destruct (listAbortRef st)
          | destruct (String.eqb _ _); by destruct (listAbortRef st)] |].
  destruct r as [data | e]; cbn.
  - by destruct (listAbortRef st).
  - destruct (String.eqb_spec (err_name e) "AbortError") as [Ha | Ha].
    + split; [by destruct (listAbortRef st) |].
      split; [done |]. intros _. by destruct (listAbortRef st).
    + split; [by destruct (listAbortRef st) |].
      split; [| done]. intros _. cbn.
      apply (message_or_nonempty e "Failed to load notes."). discriminate.
Qed.

Lemma tracks_loadNotes_settle (r : Result (list JsVal)) (st : AppState) :
  tracks (loadNotes_settle r st) = tracks st.
Proof.
  unfold loadNotes_settle. destruct r as [data | e]; [reflexivity |].
  by destruct (String.eqb _ _).
Qed.

Lemma tracks_searchTimer_settle (r : Result (list JsVal)) (st : AppState) :
  tracks (searchTimer_settle r st) = tracks st.
Proof.
  unfold searchTimer_settle. destruct r as [data | e]; [reflexivity |].
  by destruct (String.eqb _ _).
Qed.

Lemma tracks_loadNotes (env : Env) (net : Net) (st : AppState) (log : list Request) :
  tracks (fst (loadNotes env net st log)) = tracks (fst (loadNotes_begin st)).
Proof.
  unfold loadNotes.
  destruct (loadNotes_begin st) as [st1 c].
  destruct (listNotes env net (Some c) log) as [r l'].
  apply tracks_loadNotes_settle.
Qed.

Lemma one_live_controller_tracks (st st' : AppState) :
  tracks st' = tracks st -> one_live_controller st -> one_live_controller st'.
Proof.
  unfold tracks, one_live_controller, controllers_created.
  intros [= -> -> -> ->]. done.
Qed.

Lemma one_live_abort_search (st st' : AppState) :
  tracks st' = (listAbortRef st, searchAbortRef st,
                match searchAbortRef st with
                | Some c => {[ c ]} ∪ aborted st
                | None => aborted st
                end, controllers st) ->
  one_live_controller st -> one_live_controller st'.
Proof.
  unfold tracks, one_live_controller, controllers_created.
  intros [= -> -> -> ->] ((Ha & Hl & Hs) & Hd & Hlive & Hall).
  destruct (searchAbortRef st) as [s |] eqn:Es; [| done].
  repeat split; try done.
  - intros c [->%elem_of_singleton | Hc]%elem_of_union; auto.
  - intros c Hc [->%elem_of_singleton | Hin]%elem_of_union.
    + by apply (Hd s).
    + by apply (Hlive c).
  - intros c Hc. destruct (Hall c Hc) as [? | [? | ?]]; auto.
    left. set_solver.
Qed.

Ltac tracks_cases :=
  repeat match goal with
  | H : _ ∈ {[ _ ]} ∪ _ |- _ => apply elem_of_union in H as [H | H]
  | H : _ ∈ {[ _ ]} |- _ => apply elem_of_singleton in H; subst
  | H : Some _ = Some _ |- _ => injection H as H; subst
  | H : forall c, _ ∈ aborted _ -> _, H' : _ ∈ aborted _ |- _ =>
      pose proof (H _ H'); clear H
  | H : forall c, _ = Some c -> (_ < _)%nat, H' : _ = Some _ |- _ =>
      pose proof (H _ H'); clear H
  end.

Lemma one_live_loadNotes_begin (st : AppState) :
  one_live_controller st -> one_live_controller (fst (loadNotes_begin st)).
Proof.
  unfold one_live_controller, controllers_created.
  intros ((Ha & Hl & Hs) & Hd & Hlive & Hall).
  unfold loadNotes_begin. destruct (listAbortRef st) as [c0 |] eqn:El; cbn.
  - pose proof (Hl _ eq_refl) as Hc0. pose proof (Hlive _ eq_refl) as Hlive0.
    clear Hl Hd Hlive.
    repeat split.
    + intros c Hc. tracks_cases; lia.
    + intros c Hc. tracks_cases; lia.
    + intros c Hc. tracks_cases; lia.
    + intros c Hc Hc'. tracks_cases; lia.
    + intros c Hc Hc'. tracks_cases; lia.
    + intros c Hc. destruct (decide (c = controllers st)) as [-> | Hne]; [auto |].
      destruct (Hall c ltac:(lia)) as [? | [? | ?]]; auto; left; set_solver.
  - repeat split.
    + intros c Hc. tracks_cases; lia.
    + intros c Hc. tracks_cases; lia.
    + intros c Hc. tracks_cases; lia.
    + intros c Hc Hc'. tracks_cases; lia.
    + intros c Hc Hc'. tracks_cases; lia.
    + intros c Hc. destruct (decide (c = controllers st)) as [-> | Hne]; [auto |].
      destruct (Hall c ltac:(lia)) as [? | [? | ?]]; auto; discriminate.
Qed.

Lemma one_live_searchTimer_begin (st : AppState) :
  one_live_controller st -> one_live_controller (fst (searchTimer_begin st)).
Proof.
  unfold one_live_controller, controllers_created.
  intros ((Ha & Hl & Hs) & Hd & Hlive & Hall).
  unfold searchTimer_begin. destruct (searchAbortRef st) as [s0 |] eqn:Es; cbn.
  - pose proof (Hs _ eq_refl) as Hs0.
    repeat split.
    + intros c Hc. tracks_cases; lia.
    + intros c Hc. tracks_cases; lia.
    + intros c Hc. tracks_cases; lia.
    + intros c Hc Hc'. tracks_cases; lia.
    + intros c Hc Hc'. apply elem_of_union in Hc' as [->%elem_of_singleton | Hin].
      * by apply (Hd s0).
      * by apply (Hlive c).
    + intros c Hc. destruct (decide (c = controllers st)) as [-> | Hne]; [auto |].
      destruct (Hall c ltac:(lia)) as [? | [? | ?]]; auto; left; set_solver.
  - repeat split.
    + intros c Hc. tracks_cases; lia.
    + intros c Hc. tracks_cases; lia.
    + intros c Hc. tracks_cases; lia.
    + intros c Hc Hc'. tracks_cases; lia.
    + intros c Hc. by apply Hlive.
    + intros c Hc. destruct (decide (c = controllers st)) as [-> | Hne]; [auto |].
      destruct (Hall c ltac:(lia)) as [? | [? | ?]]; auto; discriminate.
Qed.

Lemma one_live_step (st st' : AppState) :
  step st st' -> one_live_controller st -> one_live_controller st'.
Proof.
  intros Hstep Hst. destruct Hstep.
  - by apply one_live_loadNotes_begin.
  - apply (one_live_controller_tracks st); [apply tracks_loadNotes_settle | done].
  - unfold onSearchChange, searchEffect.
    match goal with |- context [if ?b then _ else _] => destruct b end;
      cbn [fst].
    + apply (one_live_abort_search st); [| done].
      destruct (searchAbortRef st) eqn:E; unfold tracks; cbn; rewrite ?E; cbn; rewrite ?E; reflexivity.
    + by apply (one_live_controller_tracks st).
  - by apply one_live_searchTimer_begin.
  - apply (one_live_controller_tracks st); [apply tracks_searchTimer_settle | done].
  - by apply (one_live_controller_tracks st).
  - by apply (one_live_controller_tracks st).
  - apply (one_live_controller_tracks st); [| done].
    unfold closeModal. by destruct (busyMutation st).
  - unfold handleSubmitModal.
    destruct (submitCall _ _ _ _ _ _) as [[u | e] l'].
    + set (st1 := setModalOpen false _).
      destruct (loadNotes env net st1 l') as [st2 l2] eqn:E.
      apply (one_live_controller_tracks (fst (loadNotes env net st1 l')));
        [by rewrite E |].
      apply (one_live_controller_tracks (fst (loadNotes_begin st1)));
        [apply tracks_loadNotes |].
      apply one_live_loadNotes_begin. by apply (one_live_controller_tracks st).
    + by apply (one_live_controller_tracks st).
  - unfold handleDelete. destruct (negb _); [done |].
    destruct (deleteCall _ _ _ _) as [[u | e] l'].
    + set (st1 := setError "" _).
      destruct (loadNotes env net st1 l') as [st2 l2] eqn:E.
      apply (one_live_controller_tracks (fst (loadNotes env net st1 l')));
        [by rewrite E |].
      apply (one_live_controller_tracks (fst (loadNotes_begin st1)));
        [apply tracks_loadNotes |].
      apply one_live_loadNotes_begin. by apply (one_live_controller_tracks st).
    + by apply (one_live_controller_tracks st).
  - unfold handleResetSearch.
    set (st1 := setServerSearchActive false _).
    apply (one_live_controller_tracks (fst (loadNotes_begin st1)));
      [apply tracks_loadNotes |].
    apply one_live_loadNotes_begin. by apply (one_live_controller_tracks st).
Qed.

(** X16: in every state that the application can reach, however its
    events interleave, each track has at most one controller that is not
    aborted: every controller made so far is the one its track holds or has
    been aborted, and the controller of the latest list load is never
    aborted, a search cancels only searches. *)
Theorem reachable_one_live_controller (st : AppState) :
  reachable st -> one_live_controller st.
Proof.
  induction 1 as [| st st' _ IH Hstep].
  - unfold one_live_controller, controllers_created. cbn.
    repeat split; try done; intros c Hc; try (by apply not_elem_of_empty in Hc); lia.
  - by apply (one_live_step st).
Qed.

Lemma reachable_one_live_controller_witness :
  one_live_controller superseded.
Proof.
  apply reachable_one_live_controller.
  apply (reachable_step (fst (loadNotes_begin initialState))).
  - apply (reachable_step initialState); constructor.
  - apply step_loadNotes_begin.
Defined.

(** ** The controller: searching and mutating *)

(** X17: a server search that nothing interrupts never touches the error
    message nor [loading]; it replaces the notes only when it succeeds, and
    then sets the flag; a failure that is not a cancellation clears the
    flag and a cancellation leaves it. *)
Theorem searchTimer_outcome (env : Env) (net : Net) (q : string) (st : AppState)
    (log : list Request) :
  let st' := fst (searchTimer env net q st log) in
  error st' = error st /\ loading st' = loading st /\ search st' = search st
  /\ match fst (searchNotes env net (JStr q) (Some (controllers st)) log) with
     | Ok results => notes st' = results /\ serverSearchActive st' = true
     | Throw e =>
         notes st' = notes st
         /\ (err_name e ≠ "AbortError" -> serverSearchActive st' = false)
         /\ (err_name e = "AbortError" ->
             serverSearchActive st' = serverSearchActive st)
     end.
Proof.
  cbn zeta. unfold searchTimer.
  assert (Hb : searchTimer_begin st = (fst (searchTimer_begin st), controllers st)).
  { unfold searchTimer_begin. by destruct (searchAbortRef st). }
  rewrite Hb.
  destruct (searchNotes env net (JStr q) (Some (controllers st)) log) as [r l'].
  cbn [fst snd]. unfold searchTimer_begin.
  destruct r as [results | e]; cbn [searchTimer_settle].
  - by destruct (searchAbortRef st).
  - destruct (String.eqb_spec (err_name e) "AbortError") as [Ha | Ha];
      by destruct (searchAbortRef st).
Qed.



Section HandlerProperties.

Variable JSON_stringify : JsVal -> string.
Variable confirm : string -> bool.
Variables (env : Env) (net : Net).

(** X19: submitting the form in edit mode for a note whose [id] is falsy
    (missing, [null], the number 0 or the empty string) makes no request:
    the error message says that the id is missing, the form stays as it
    was, the notes are kept and the busy flag is cleared. *)
Theorem handleSubmitModal_missing_id (payload : JsVal) (st : AppState)
    (log : list Request) :
  modalMode st = "edit" ->
  Js.truthy (Js.get (activeNote st) "id") = false ->
  let st' := fst (handleSubmitModal JSON_stringify env net payload st log) in
  snd (handleSubmitModal JSON_stringify env net payload st log) = log
  /\ error st' = "Cannot edit: missing note id."
  /\ modalOpen st' = modalOpen st /\ notes st' = notes st
  /\ busyMutation st' = false.
Proof.
  intros Hmode Hid. cbn zeta. unfold handleSubmitModal, submitCall.
  cbn [modalMode activeNote setError setBusyMutation].
  rewrite Hmode, Hid. cbn. done.
Qed.

(** X20: a submission that nothing interrupts always ends with the busy
    flag cleared; when the adapter call succeeds the form is closed and the
    list is reloaded, by one [GET] of the collection made after the
    requests of the call; when it fails no reload is made, the form and the
    notes stay as they were and the error shown is not empty. *)
Theorem handleSubmitModal_outcome (payload : JsVal) (st : AppState)
    (log : list Request) :
  let st' := fst (handleSubmitModal JSON_stringify env net payload st log) in
  busyMutation st' = false
  /\ match submitCall JSON_stringify env net st payload log with
     | (Ok _, log1) =>
         snd (handleSubmitModal JSON_stringify env net payload st log)
         = (log1 ++ [request_of env "/notes" GET (Some (controllers st))])%list
         /\ modalOpen st' = false /\ loading st' = false
     | (Throw e, log1) =>
         snd (handleSubmitModal JSON_stringify env net payload st log) = log1
         /\ modalOpen st' = modalOpen st /\ notes st' = notes st
         /\ loading st' = loading st /\ error st' ≠ ""
     end.
Proof.
  cbn zeta. unfold handleSubmitModal.
  replace (submitCall JSON_stringify env net (setError "" (setBusyMutation true st)))
    with (submitCall JSON_stringify env net st) by reflexivity.
  destruct (submitCall JSON_stringify env net st payload log) as [[u | e] log1].
  - set (st1 := setModalOpen false _).
    pose proof (loadNotes_outcome env net st1 log1) as (Hlog & Hload & _).
    assert (Hmodal : modalOpen (fst (loadNotes env net st1 log1)) = false).
    { unfold loadNotes, loadNotes_begin. subst st1. cbn.
      destruct (listAbortRef st); cbn;
        destruct (listNotes _ _ _ _) as [[data | e] l']; cbn;
        try destruct (String.eqb _ _); reflexivity. }
    destruct (loadNotes env net st1 log1) as [st2 log2]. cbn [fst snd] in *.
    by subst log2.
  - cbn. repeat split. by apply message_or_nonempty.
Qed.

(** X21: a deletion that the user declines does nothing; one of a note
    whose [id] is falsy makes no request and reports the missing id. *)
Theorem handleDelete_guards (note : JsVal) (st : AppState) (log : list Request) :
  let prompt :=
    "Delete " ++ quoted (Js.toString (Js.get note "title" || JStr "this note")%js)
              ++ "? This cannot be undone." in
  (confirm prompt = false -> handleDelete confirm env net note st log = (st, log))
  /\ (confirm prompt = true -> Js.truthy (Js.get note "id") = false ->
        let st' := fst (handleDelete confirm env net note st log) in
        snd (handleDelete confirm env net note st log) = log
        /\ error st' = "Cannot delete: missing note id."
        /\ notes st' = notes st /\ busyMutation st' = false).
Proof.
  cbn zeta. unfold handleDelete, deleteCall. split.
  - by intros ->.
  - intros -> ->. cbn. done.
Qed.

(** X22: a confirmed deletion answered with [204 No Content] makes the
    [DELETE] and then reloads the list with one [GET] of the collection;
    it ends with the busy flag cleared and with the state that the reload
    leaves. *)
Theorem handleDelete_no_content (note : JsVal) (st : AppState) (log : list Request)
    (res : Response) :
  let del :=
    request_of env ("/notes/" ++ Str.encodeURIComponent (Js.toString (Js.get note "id")))
      {| init_method := "DELETE"; init_body := None; init_headers := None |} None in
  confirm ("Delete " ++ quoted (Js.toString (Js.get note "title" || JStr "this note")%js)
                     ++ "? This cannot be undone.") = true ->
  Js.truthy (Js.get note "id") = true ->
  net log del = Fulfilled res -> res_status res = 204 ->
  let st' := fst (handleDelete confirm env net note st log) in
  snd (handleDelete confirm env net note st log)
    = (log ++ [del; request_of env "/notes" GET (Some (controllers st))])%list
  /\ busyMutation st' = false /\ loading st' = false
  /\ st' = setBusyMutation false
             (fst (loadNotes env net (setError "" (setBusyMutation true st))
                     (log ++ [del])%list)).
Proof.
  cbn zeta. intros Hc Hid Hnet Hs. unfold handleDelete, deleteCall.
  rewrite Hc, Hid. cbn [negb].
  pose proof (deleteNote_no_content env net (Js.get note "id") None log res Hnet Hs)
    as Hdel.
  destruct (deleteNote_request env net (Js.get note "id") None log)
    as (seg & Hlog & _).
  assert (Hlog' : snd (deleteNote env net (Js.get note "id") None log)
                  = (log ++ [request_of env
                       ("/notes/" ++ Str.encodeURIComponent (Js.toString (Js.get note "id")))
                       {| init_method := "DELETE"; init_body := None; init_headers := None |}
                       None])%list).
  { unfold deleteNote, bind.
    pose proof (requestJson_log env net
      ("/notes/" ++ Str.encodeURIComponent (Js.toString (Js.get note "id")))
      {| init_method := "DELETE"; init_body := None; init_headers := None |}
      None log) as Hl.
    destruct (requestJson _ _ _ _ _ log) as [[data | e] l']; exact Hl. }
  destruct (deleteNote env net (Js.get note "id") None log) as [r l1].
  cbn [fst snd] in Hdel, Hlog'. subst r l1.
  set (st1 := setError "" _).
  pose proof (loadNotes_outcome env net st1
    (log ++ [request_of env
               ("/notes/" ++ Str.encodeURIComponent (Js.toString (Js.get note "id")))
               {| init_method := "DELETE"; init_body := None; init_headers := None |}
               None])%list) as (Hl & Hload & _).
  destruct (loadNotes env net st1 _) as [st2 log2]. cbn [fst snd] in *.
  subst log2. rewrite <- app_assoc. repeat split. exact Hload.
Qed.

(** X23: clearing the search empties the text, clears the flag and reloads
    the list with one [GET] of the collection; afterwards every note of
    the list is displayed. *)
Theorem handleResetSearch_shows_all (st : AppState) (log : list Request) :
  let st' := fst (handleResetSearch env net st log) in
  search st' = "" /\ serverSearchActive st' = false
  /\ visibleNotes st' = notes st'
  /\ snd (handleResetSearch env net st log)
     = (log ++ [request_of env "/notes" GET (Some (controllers st))])%list.
Proof.
  cbn zeta. unfold handleResetSearch.
  set (st1 := setServerSearchActive false (setSearch "" st)).
  pose proof (loadNotes_outcome env net st1 log) as (Hlog & _ & Hsearch & _).
  assert (Hflag : serverSearchActive (fst (loadNotes env net st1 log)) = false).
  { unfold loadNotes, loadNotes_begin. subst st1. cbn.
    destruct (listAbortRef st); cbn;
      destruct (listNotes _ _ _ _) as [[data | e] l']; cbn;
      try destruct (String.eqb _ _); reflexivity. }
  split; [exact Hsearch |]. split; [exact Hflag |]. split; [| exact Hlog].
  unfold visibleNotes. rewrite Hsearch. reflexivity.
Qed.

End HandlerProperties.

Lemma handleSubmitModal_missing_id_witness :
  snd (handleSubmitModal stringify_plain no_env offline milk
         (openEdit zero_id initialState) []) = []
  /\ error (fst (handleSubmitModal stringify_plain no_env offline milk
                   (openEdit zero_id initialState) []))
     = "Cannot edit: missing note id.".
Proof.
  destruct (handleSubmitModal_missing_id stringify_plain no_env offline milk
              (openEdit zero_id initialState) [] eq_refl eq_refl) as (H1 & H2 & _).
  split; [exact H1 | exact H2].
Defined.

Lemma handleDelete_guards_witness :
  snd (handleDelete yes no_env offline zero_id initialState []) = [].
Proof.
  exact (proj1 (proj2 (handleDelete_guards yes no_env offline zero_id initialState [])
                 eq_refl eq_refl)).
Defined.

Lemma handleDelete_no_content_witness :
  snd (handleDelete yes no_env no_content milk initialState [])
  = [request_of no_env "/notes/1"
       {| init_method := "DELETE"; init_body := None; init_headers := None |} None;
     request_of no_env "/notes" GET (Some 0%nat)].
Proof.
  exact (proj1 (handleDelete_no_content yes no_env no_content milk initialState []
                  (empty_response 204) eq_refl eq_refl eq_refl eq_refl)).
Defined.

(** ** The note form *)





(** X26: the form opened on a note whose [title] is truthy but not a
    string (a number, as normalization lets through) cannot be submitted as
    it is: the submission throws a [TypeError] and the submit handler is
    not called, so no request is made. *)
Theorem submitForm_title_not_string (JSON_stringify : JsVal -> string) (env : Env)
    (net : Net) (note : JsVal) (st : AppState) (log : list Request) :
  Js.truthy (Js.get note "title") = true ->
  (forall s, Js.get note "title" ≠ JStr s) ->
  submitForm JSON_stringify env net (NoteModal.opened note) st log
  = Throw (TypeError "title.trim is not a function").
Proof.
  intros Ht Hs. unfold submitForm, NoteModal.submit, NoteModal.opened, NoteModal.initial.
  cbn [NoteModal.title fst]. rewrite (or_truthy _ _ Ht).
  destruct (Js.get note "title"); try reflexivity. by destruct (Hs s).
Qed.

Lemma submitForm_title_not_string_witness :
  submitForm stringify_plain no_env offline
    (NoteModal.opened (normalizeNote numeric_title)) initialState []
  = Throw (TypeError "title.trim is not a function").
Proof.
  apply (submitForm_title_not_string stringify_plain no_env offline
           (normalizeNote numeric_title) initialState [] eq_refl).
  intros s. discriminate.
Defined.

(** ** The note card *)

Lemma length_take (n : nat) (s : string) :
  String.length (StrSlice.take n s) = Nat.min n (String.length s).
Proof.
  revert s. induction n as [| n IH]; intros [| c r]; cbn; try reflexivity.
  by rewrite IH.
Qed.

Lemma length_app (s t : string) :
  String.length (s ++ t) = (String.length s + String.length t)%nat.
Proof.
  induction s as [| c r IH]; [reflexivity |].
  change (S (String.length (r ++ t)) = S (String.length r + String.length t)).
  by rewrite IH.
Qed.

Lemma slice_prefix (s : string) (n : Z) :
  0 <= n <= Z.of_nat (String.length s) ->
  StrSlice.slice s 0 n = StrSlice.take (Z.to_nat n) s.
Proof.
  intros Hn. unfold StrSlice.slice.
  assert (H0 : StrSlice.absolute (Z.of_nat (String.length s)) 0 = 0).
  { unfold StrSlice.absolute. cbn [Z.ltb Z.compare]. lia. }
  assert (H1 : StrSlice.absolute (Z.of_nat (String.length s)) n = n).
  { unfold StrSlice.absolute. destruct (Z.ltb_spec n 0); lia. }
  rewrite H0, H1. replace (Z.max (n - 0) 0) with n by lia. by destruct s.
Qed.

(** X27: a text truncated to a positive length is never longer than that
    length: a text that fits is shown whole, and a longer one is cut to its
    first characters, one fewer than the length, followed by the
    ellipsis. *)
Theorem truncate_length (ellipsis : ascii) (text : JsVal) (maxLen : Z) :
  1 <= maxLen ->
  let t := Js.toString (text || JStr "")%js in
  Z.of_nat (String.length (truncate ellipsis text maxLen)) <= maxLen
  /\ (Z.of_nat (String.length t) <= maxLen -> truncate ellipsis text maxLen = t)
  /\ (maxLen < Z.of_nat (String.length t) ->
        truncate ellipsis text maxLen
        = StrSlice.take (Z.to_nat (maxLen - 1)) t ++ String ellipsis "").
Proof.
  intros Hm. cbn zeta. unfold truncate.
  set (t := Js.toString (text || JStr "")%js).
  destruct (Z.leb_spec (Z.of_nat (String.length t)) maxLen) as [Hle | Hgt].
  - split; [exact Hle |]. split; [done | lia].
  - rewrite slice_prefix by lia. split; [| split; [lia | done]].
    rewrite length_app, length_take. cbn. lia.
Qed.

Lemma truncate_length_witness :
  truncate "."%char (JStr "abcdef") 4 = "abc.".
Proof.
  destruct (truncate_length "."%char (JStr "abcdef") 4 ltac:(lia)) as (_ & _ & H).
  apply H. vm_compute. reflexivity.
Defined.

(** X28: the heading of a card is never longer than 80 characters and its
    paragraph never longer than 240; a note whose [title] is falsy is
    headed [(Untitled)], and one whose [content] is falsy has no
    paragraph. *)
Theorem card_texts (ellipsis : ascii) (note : JsVal) :
  (String.length (cardTitle ellipsis note) <= 80)%nat
  /\ (forall p, cardContent ellipsis note = Some p -> (String.length p <= 240)%nat)
  /\ (Js.truthy (Js.get note "title") = false ->
        cardTitle ellipsis note = "(Untitled)")
  /\ (Js.truthy (Js.get note "content") = false <-> cardContent ellipsis note = None).
Proof.
  unfold cardTitle, cardContent. split; [| split; [| split]].
  - pose proof (truncate_length ellipsis (Js.get note "title" || JStr "(Untitled)")%js
                  80 ltac:(lia)) as [H _]. lia.
  - intros p. destruct (Js.truthy (Js.get note "content" || JStr "")%js);
      [| discriminate]. intros [= <-].
    pose proof (truncate_length ellipsis (Js.get note "content" || JStr "")%js
                  240 ltac:(lia)) as [H _]. lia.
  - intros H. by rewrite (or_falsy _ _ H).
  - destruct (Js.truthy (Js.get note "content")) eqn:E.
    + rewrite (or_truthy _ _ E), E. split; discriminate.
    + by rewrite (or_falsy _ _ E).
Qed.
